(** * Site Kit, modules/analytics data store: profiles

    A shallow embedding of the profiles part of the Analytics data store
    (the store built from [fetchGetProfilesStore], [fetchCreateProfileStore]
    and the base actions, resolvers and selectors), together with the
    properties of its lazy-fetch cache.

    JavaScript objects used as maps are finite maps ([gmap]) of their own
    properties, and indexing [state.profiles] also finds the members it
    inherits from [Object.prototype] ([index]); [undefined] is [None];
    generator functions are trees of yields ([Gen]) which a registry runs up
    to the next network round trip. *)

From stdpp Require Import base option list strings gmap.
From Stdlib Require Import ZArith Ascii.

Set Default Proof Using "Type".

(** ** Data *)

(** An Analytics profile as the REST API returns it.  The store only ever
    inspects [id]; [name] stands for the rest of the payload. *)
Record Profile := { id : string; name : string }.

(** Error payload of a failed request:
    [{ code, message, data: { status } }]. *)
Record Error := { code : string; message : string; status : Z }.

(** What a network round trip settles to. *)
Inductive Outcome (A : Type) :=
| Resolved (a : A)
| Rejected (e : Error).
Arguments Resolved {A} a.
Arguments Rejected {A} e.

(** The [{ response, error }] object a fetch action returns. *)
Record FetchResult (A : Type) := { response : option A; error : option Error }.
Arguments response {A} _.
Arguments error {A} _.

(** Either a value or a thrown [Error] (its message). *)
Inductive Thrown (A : Type) :=
| Value (a : A)
| Throws (msg : string).
Arguments Value {A} a.
Arguments Throws {A} msg.

Global Instance Thrown_mret : MRet Thrown := @Value.
Global Instance Thrown_mbind : MBind Thrown := λ A B f t,
  match t with
  | Value a => f a
  | Throws msg => Throws msg
  end.

(** [invariant( condition, message )]: throws unless the condition holds. *)
Definition invariant (condition : bool) (msg : string) : Thrown () :=
  if condition then Value () else Throws msg.

(** The helpers imported from [../util] and [./constants].  Their bodies are
    not among the sources, so the development is parametric in them. *)
Class Util := {
  isValidPropertyID : string → bool;
  isValidProfileName : string → bool;
  (** the [accountID] component of [parsePropertyID( propertyID )] *)
  parsePropertyID : string → string;
  PROFILE_CREATE : string;
}.

(** The requests the two control callbacks send. *)
Inductive Request :=
| API_get_profiles (accountID propertyID : string)
| API_set_create_profile (accountID propertyID profileName : string).

Global Instance Request_eq_dec : EqDecision Request.
Proof. solve_decision. Defined.

(** Parameters of [createProfile]: [{ propertyID, profileName }].  The
    parameters of [getProfiles], [{ propertyID }], are the property ID
    itself.  A fetch store indexes its in-flight flags by the serialized
    parameters; serialization is injective, so the parameters themselves
    serve as index. *)
Definition CreateParams : Type := string * string.

(** ** Store state

    [profiles] comes from [BASE_INITIAL_STATE]; the [isFetching...] maps and
    the stored error belong to the two fetch stores; [profileID] is the
    setting read by [getProfileID] and written by [setProfileID]. *)
Record State := {
  profiles : gmap string (list Profile);
  isFetchingGetProfiles : gmap string bool;
  isFetchingCreateProfile : gmap CreateParams bool;
  storedError : option Error;
  profileID : option string;
}.

Definition set_profiles (f : gmap string (list Profile) → gmap string (list Profile))
  (state : State) : State :=
  {| profiles := f (profiles state);
     isFetchingGetProfiles := isFetchingGetProfiles state;
     isFetchingCreateProfile := isFetchingCreateProfile state;
     storedError := storedError state;
     profileID := profileID state |}.

Definition set_isFetchingGetProfiles (f : gmap string bool → gmap string bool)
  (state : State) : State :=
  {| profiles := profiles state;
     isFetchingGetProfiles := f (isFetchingGetProfiles state);
     isFetchingCreateProfile := isFetchingCreateProfile state;
     storedError := storedError state;
     profileID := profileID state |}.

Definition set_isFetchingCreateProfile
  (f : gmap CreateParams bool → gmap CreateParams bool) (state : State) : State :=
  {| profiles := profiles state;
     isFetchingGetProfiles := isFetchingGetProfiles state;
     isFetchingCreateProfile := f (isFetchingCreateProfile state);
     storedError := storedError state;
     profileID := profileID state |}.

Definition set_storedError (e : option Error) (state : State) : State :=
  {| profiles := profiles state;
     isFetchingGetProfiles := isFetchingGetProfiles state;
     isFetchingCreateProfile := isFetchingCreateProfile state;
     storedError := e;
     profileID := profileID state |}.

Definition set_profileID (v : option string) (state : State) : State :=
  {| profiles := profiles state;
     isFetchingGetProfiles := isFetchingGetProfiles state;
     isFetchingCreateProfile := isFetchingCreateProfile state;
     storedError := storedError state;
     profileID := v |}.

(** ** Indexing the [profiles] object

    [state.profiles] is a plain object: besides its own properties (the
    cached lists) an index expression finds the members it inherits from
    [Object.prototype]. *)

(** The property names every plain object inherits. *)
Definition Object_prototype : list string :=
  ["constructor"; "__proto__"; "hasOwnProperty"; "isPrototypeOf";
   "propertyIsEnumerable"; "toLocaleString"; "toString"; "valueOf";
   "__defineGetter__"; "__defineSetter__"; "__lookupGetter__";
   "__lookupSetter__"].

Definition inherited (key : string) : bool :=
  bool_decide (key ∈ Object_prototype).

(** What [profiles[ key ]] evaluates to when it is not [undefined]: a cached
    list, or the inherited member of that name (a function or, for
    [__proto__], the prototype object: truthy, not iterable, and without an
    element [0]). *)
Inductive Stored :=
| Array (l : list Profile)
| Member (key : string).

(** [profiles[ key ]]: an own property shadows an inherited one. *)
Definition index (own : gmap string (list Profile)) (key : string) : option Stored :=
  match own !! key with
  | Some l => Some (Array l)
  | None => if inherited key then Some (Member key) else None
  end.

(** ** The two fetch stores: the callbacks given to [createFetchStore] *)

Module fetchGetProfilesStore.

(** [API.get( 'modules', 'analytics', 'profiles', { accountID, propertyID },
    { useCache: false } )]. *)
Definition controlCallback `{Util} (propertyID : string) : Request :=
  let accountID := parsePropertyID propertyID in
  API_get_profiles accountID propertyID.

(** [{ ...state, profiles: { ...state.profiles, [ propertyID ]: [ ...profiles ] } }] *)
Definition reducerCallback (state : State) (received : list Profile)
  (propertyID : string) : State :=
  set_profiles (λ old, <[propertyID := received]> old) state.

Definition argsToParams `{Util} (propertyID : string) : Thrown string :=
  invariant (isValidPropertyID propertyID)
    "a valid property ID is required to fetch profiles for.";;
  Value propertyID.

End fetchGetProfilesStore.

Module fetchCreateProfileStore.

(** [API.set( 'modules', 'analytics', 'create-profile',
    { accountID, propertyID, profileName } )]. *)
Definition controlCallback `{Util} (params : CreateParams) : Request :=
  let '(propertyID, profileName) := params in
  let accountID := parsePropertyID propertyID in
  API_set_create_profile accountID propertyID profileName.

(** [[ ...( state.profiles[ propertyID ] || [] ), profile ]]: an array is
    truthy even when empty, so the fallback is taken exactly when the index
    expression is [undefined]; an inherited member is truthy too, and
    spreading it throws a [TypeError], as it is not iterable. *)
Definition reducerCallback (state : State) (profile : Profile)
  (params : CreateParams) : Thrown State :=
  let '(propertyID, _) := params in
  match index (profiles state) propertyID with
  | Some (Member _) => Throws "TypeError"
  | Some (Array l) =>
      Value (set_profiles (λ old, <[propertyID := l ++ [profile]]> old) state)
  | None =>
      Value (set_profiles (λ old, <[propertyID := [] ++ [profile]]> old) state)
  end.

Definition argsToParams `{Util} (propertyID profileName : string) : Thrown CreateParams :=
  invariant (isValidPropertyID propertyID)
    "a valid property ID is required to create a profile.";;
  invariant (isValidProfileName profileName)
    "a valid name is required to create a profile.";;
  Value (propertyID, profileName).

End fetchCreateProfileStore.

(** [BASE_INITIAL_STATE] combined with the initial states of the two fetch
    stores: nothing cached, nothing in flight, nothing selected. *)
Definition BASE_INITIAL_STATE : State :=
  {| profiles := ∅;
     isFetchingGetProfiles := ∅;
     isFetchingCreateProfile := ∅;
     storedError := None;
     profileID := None |}.

(** ** Selectors *)

Module baseSelectors.

(** [state.profiles[ propertyID ]] *)
Definition getProfiles (state : State) (propertyID : string) : option Stored :=
  index (profiles state) propertyID.

(** The JavaScript [Boolean] conversion, on booleans. *)
Definition Boolean (b : bool) : bool := b.

(** [Object.values( state.isFetchingCreateProfile ).some( Boolean )] *)
Definition isDoingCreateProfile (state : State) : bool :=
  existsb Boolean (snd <$> map_to_list (isFetchingCreateProfile state)).

End baseSelectors.

(** ** Generators

    Actions and resolvers are generator functions.  A generator is the tree
    of what it yields: a plain action object to reduce, a look at the store
    through [registry.select], or a control that waits for the network
    ([API.get], [API.set]).  A thrown error ends it. *)

(** The plain action objects reduced by the store. *)
Inductive Action :=
| START_FETCH_GET_PROFILES (params : string)
| RECEIVE_GET_PROFILES (received : list Profile) (params : string)
| FINISH_FETCH_GET_PROFILES (params : string)
| CATCH_FETCH_GET_PROFILES (e : Error) (params : string)
| START_FETCH_CREATE_PROFILE (params : CreateParams)
| RECEIVE_CREATE_PROFILE (received : Profile) (params : CreateParams)
| FINISH_FETCH_CREATE_PROFILE (params : CreateParams)
| CATCH_FETCH_CREATE_PROFILE (e : Error) (params : CreateParams)
| SET_PROFILE_ID (value : string).

Inductive Gen (R : Type) : Type :=
| Return (r : R)
| Raise (msg : string)
| Select (k : State → Gen R)
| Dispatch (a : Action) (k : Gen R)
| Await_get (req : Request) (k : Outcome (list Profile) → Gen R)
| Await_set (req : Request) (k : Outcome Profile → Gen R).
Arguments Return {R} r.
Arguments Raise {R} msg.
Arguments Select {R} k.
Arguments Dispatch {R} a k.
Arguments Await_get {R} req k.
Arguments Await_set {R} req k.

(** [yield] of a nested generator: run it, then go on with its result. *)
Fixpoint Gen_bind {A B} (f : A → Gen B) (g : Gen A) : Gen B :=
  match g with
  | Return a => f a
  | Raise msg => Raise msg
  | Select k => Select (λ state, Gen_bind f (k state))
  | Dispatch a k => Dispatch a (Gen_bind f k)
  | Await_get req k => Await_get req (λ o, Gen_bind f (k o))
  | Await_set req k => Await_set req (λ o, Gen_bind f (k o))
  end.

Global Instance Gen_mret : MRet Gen := @Return.
Global Instance Gen_mbind : MBind Gen := @Gen_bind.

(** A function call that may throw, inside a generator. *)
Definition try_call {A} (t : Thrown A) : Gen A :=
  match t with
  | Value a => Return a
  | Throws msg => Raise msg
  end.

(** Modelled from the spec: [createFetchStore]
    (googlesitekit/data/create-fetch-store) is not among the sources;
    only the callbacks handed to it are.  Following the resolver and
    mutation contracts of the spec, the fetch action it builds validates its
    arguments with [argsToParams] before anything else, marks the parameters
    as fetching, invokes the fetch operation ([controlCallback]) once, and
    then either merges the response through [reducerCallback] and clears the
    mark, or stores the error payload and clears the mark without touching
    the cached values; it returns [{ response, error }]. *)
Definition createFetchStore_fetch {Params A : Type}
  (control : Request → (Outcome A → Gen (FetchResult A)) → Gen (FetchResult A))
  (START_FETCH : Params → Action) (RECEIVE : A → Params → Action)
  (FINISH_FETCH : Params → Action) (CATCH_FETCH : Error → Params → Action)
  (controlCallback : Params → Request)
  (args : Thrown Params) : Gen (FetchResult A) :=
  params ← try_call args;
  Dispatch (START_FETCH params)
    (control (controlCallback params) (λ o,
       match o with
       | Resolved received =>
           Dispatch (RECEIVE received params)
             (Dispatch (FINISH_FETCH params)
                (Return {| response := Some received; error := None |}))
       | Rejected e =>
           Dispatch (CATCH_FETCH e params)
             (Return {| response := None; error := Some e |})
       end)).

(** Modelled from the spec: the reducer [createFetchStore] builds is not
    among the sources.  A key is marked fetching when its fetch
    starts and unmarked when it settles; a response goes through the
    store's [reducerCallback] (which is in the sources); a failure stores
    the error payload for the error selector.  [SET_PROFILE_ID] is the
    setter of the [profileID] setting.  A [reducerCallback] that throws
    leaves the state as it was; what the fetch action does with such an
    error is not modelled (it takes a property ID that passed validation
    and names a member of [Object.prototype]). *)
Definition reducer (state : State) (a : Action) : State :=
  match a with
  | START_FETCH_GET_PROFILES params =>
      set_isFetchingGetProfiles (λ m, <[params := true]> m) state
  | RECEIVE_GET_PROFILES received params =>
      fetchGetProfilesStore.reducerCallback state received params
  | FINISH_FETCH_GET_PROFILES params =>
      set_isFetchingGetProfiles (λ m, <[params := false]> m) state
  | CATCH_FETCH_GET_PROFILES e params =>
      set_storedError (Some e)
        (set_isFetchingGetProfiles (λ m, <[params := false]> m) state)
  | START_FETCH_CREATE_PROFILE params =>
      set_isFetchingCreateProfile (λ m, <[params := true]> m) state
  | RECEIVE_CREATE_PROFILE received params =>
      match fetchCreateProfileStore.reducerCallback state received params with
      | Value state' => state'
      | Throws _ => state
      end
  | FINISH_FETCH_CREATE_PROFILE params =>
      set_isFetchingCreateProfile (λ m, <[params := false]> m) state
  | CATCH_FETCH_CREATE_PROFILE e params =>
      set_storedError (Some e)
        (set_isFetchingCreateProfile (λ m, <[params := false]> m) state)
  | SET_PROFILE_ID value => set_profileID (Some value) state
  end.

(** [fetchGetProfilesStore.actions.fetchGetProfiles] *)
Definition fetchGetProfiles `{Util} (propertyID : string)
  : Gen (FetchResult (list Profile)) :=
  createFetchStore_fetch Await_get
    START_FETCH_GET_PROFILES RECEIVE_GET_PROFILES
    FINISH_FETCH_GET_PROFILES CATCH_FETCH_GET_PROFILES
    fetchGetProfilesStore.controlCallback
    (fetchGetProfilesStore.argsToParams propertyID).

(** [fetchCreateProfileStore.actions.fetchCreateProfile] *)
Definition fetchCreateProfile `{Util} (propertyID profileName : string)
  : Gen (FetchResult Profile) :=
  createFetchStore_fetch Await_set
    START_FETCH_CREATE_PROFILE RECEIVE_CREATE_PROFILE
    FINISH_FETCH_CREATE_PROFILE CATCH_FETCH_CREATE_PROFILE
    fetchCreateProfileStore.controlCallback
    (fetchCreateProfileStore.argsToParams propertyID profileName).

(** Modelled from the spec: the selectors [getProfileID] and [getError] are
    defined in parts of the store that are not among the sources;
    they read the selected profile ID and the stored error payload. *)
Definition getProfileID (state : State) : option string := profileID state.

Definition getError (state : State) : option Error := storedError state.

(** Truthiness of an optional string: [undefined] and the empty string are
    falsy. *)
Definition truthy (v : option string) : bool :=
  match v with
  | Some s => negb (String.eqb s "")
  | None => false
  end.

(** ** Actions and resolvers *)

Module baseActions.

Definition createProfile `{Util} (propertyID profileName : string)
  : Gen (FetchResult Profile) :=
  try_call (invariant (isValidPropertyID propertyID)
              "a valid property ID is required to create a profile.");;
  try_call (invariant (isValidProfileName profileName)
              "a valid name is required to create a profile.");;
  r ← fetchCreateProfile propertyID profileName;
  Return {| response := response r; error := error r |}.

End baseActions.

Module baseResolvers.

(** The tail of the resolver, from [const profileID = ...] on. *)
Definition selectProfile `{Util} (received : option Stored) : Gen () :=
  Select (λ state,
    let profileID := getProfileID state in
    match received with
    | Some found =>
        if negb (truthy profileID) then
          let profile_id :=
            match found with
            | Array l =>
                match l !! 0%nat with
                | Some profile => id profile
                | None => PROFILE_CREATE
                end
            | Member _ => PROFILE_CREATE
            end in
          Dispatch (SET_PROFILE_ID profile_id) (Return ())
        else Return ()
    | None => Return ()
    end).

Definition getProfiles `{Util} (propertyID : string) : Gen () :=
  if negb (isValidPropertyID propertyID) then Return ()
  else
    (* const registry = yield Data.commonActions.getRegistry(); *)
    Select (λ state,
      let cached := baseSelectors.getProfiles state propertyID in
      received ←
        match cached with
        | None =>
            (* Only fetch profiles if there are none received. *)
            r ← fetchGetProfiles propertyID; Return (Array <$> response r)
        | Some _ => Return cached
        end;
      selectProfile received).

End baseResolvers.

(** ** The registry

    The registry owns the store state, remembers for which arguments the
    [getProfiles] resolver has been started, holds the generators that are
    suspended on the network, and (for the proofs) logs every request
    sent. *)

(** Run a generator until it returns, throws or waits for the network;
    yielded actions are reduced and selections see the current state. *)
Fixpoint run {R} (g : Gen R) (state : State) : State * Gen R :=
  match g with
  | Select k => run (k state) state
  | Dispatch a k => run k (reducer state a)
  | _ => (state, g)
  end.

(** The request a suspended generator waits for. *)
Definition awaited {R} (g : Gen R) : option Request :=
  match g with
  | Await_get req _ | Await_set req _ => Some req
  | _ => None
  end.

Inductive Process :=
| ResolverRun (g : Gen ())
| ActionRun (g : Gen (FetchResult Profile)).

Definition process_awaited (p : Process) : option Request :=
  match p with
  | ResolverRun g => awaited g
  | ActionRun g => awaited g
  end.

Record Registry := {
  store : State;
  resolution : gset string;
  inflight : list Process;
  calls : list Request;
}.

Definition createRegistry : Registry :=
  {| store := BASE_INITIAL_STATE; resolution := ∅; inflight := []; calls := [] |}.

(** What the outside world does to the registry. *)
Inductive Event :=
| Read (propertyID : string)
| Create (propertyID profileName : string)
| Respond_get (slot : nat) (o : Outcome (list Profile))
| Respond_set (slot : nat) (o : Outcome Profile).

(** What the caller of an event observes. *)
Inductive Output :=
| Selected (value : option Stored)
| Threw (msg : string)
| Returned (result : FetchResult Profile)
| Nothing.

(** A newly started generator, already run to its first stop: if it waits
    for the network it joins the in-flight list and its request is sent. *)
Definition spawn (wrap : Process) (req : option Request) (state : State)
  (r : Registry) : Registry :=
  {| store := state;
     resolution := resolution r;
     inflight := inflight r ++ match req with Some _ => [wrap] | None => [] end;
     calls := calls r ++ option_list req |}.

(** A resumed generator, already run to its next stop: it keeps its slot if
    it waits again and leaves the in-flight list otherwise. *)
Definition resume (slot : nat) (wrap : Process) (req : option Request)
  (state : State) (r : Registry) : Registry :=
  {| store := state;
     resolution := resolution r;
     inflight := match req with
                 | Some _ => <[slot := wrap]> (inflight r)
                 | None => delete slot (inflight r)
                 end;
     calls := calls r ++ option_list req |}.

(** The resolver for these arguments has been started. *)
Definition startResolution (propertyID : string) (r : Registry) : Registry :=
  {| store := store r;
     resolution := {[propertyID]} ∪ resolution r;
     inflight := inflight r;
     calls := calls r |}.

Definition action_output (g : Gen (FetchResult Profile)) : Output :=
  match g with
  | Return result => Returned result
  | Raise msg => Threw msg
  | _ => Nothing
  end.

Definition resolver_output (g : Gen ()) : Output :=
  match g with
  | Raise msg => Threw msg
  | _ => Nothing
  end.

(** Modelled from the spec: the registry of the data framework is not among
    the sources.  As the spec's resolver contract says, a read
    returns the cached value at once and starts the resolver only the first
    time its key is read; an action runs when it is dispatched; a network
    answer resumes the generator that waits for it. *)
Definition step `{Util} (r : Registry) (ev : Event) : Registry * Output :=
  match ev with
  | Read propertyID =>
      let value := baseSelectors.getProfiles (store r) propertyID in
      if decide (propertyID ∈ resolution r) then (r, Selected value)
      else
        let '(state, g) := run (baseResolvers.getProfiles propertyID) (store r) in
        (startResolution propertyID (spawn (ResolverRun g) (awaited g) state r),
         Selected value)
  | Create propertyID profileName =>
      let '(state, g) := run (baseActions.createProfile propertyID profileName) (store r) in
      (spawn (ActionRun g) (awaited g) state r, action_output g)
  | Respond_get slot o =>
      match inflight r !! slot with
      | Some (ResolverRun (Await_get _ k)) =>
          let '(state, g) := run (k o) (store r) in
          (resume slot (ResolverRun g) (awaited g) state r, resolver_output g)
      | Some (ActionRun (Await_get _ k)) =>
          let '(state, g) := run (k o) (store r) in
          (resume slot (ActionRun g) (awaited g) state r, action_output g)
      | _ => (r, Nothing)
      end
  | Respond_set slot o =>
      match inflight r !! slot with
      | Some (ResolverRun (Await_set _ k)) =>
          let '(state, g) := run (k o) (store r) in
          (resume slot (ResolverRun g) (awaited g) state r, resolver_output g)
      | Some (ActionRun (Await_set _ k)) =>
          let '(state, g) := run (k o) (store r) in
          (resume slot (ActionRun g) (awaited g) state r, action_output g)
      | _ => (r, Nothing)
      end
  end.

(** The registry after a sequence of events. *)
Definition exec `{Util} (r : Registry) (trace : list Event) : Registry :=
  foldl (λ r ev, (step r ev).1) r trace.

(** ** What the two generators do, in closed form *)

(** The [{ response, error }] a fetch action returns for an outcome. *)
Definition result_of {A} (o : Outcome A) : FetchResult A :=
  match o with
  | Resolved a => {| response := Some a; error := None |}
  | Rejected e => {| response := None; error := Some e |}
  end.

(** The id the resolver selects for a received list: that of the first
    profile, or [PROFILE_CREATE] for the empty list. *)
Definition firstProfileID `{Util} (l : list Profile) : string :=
  match l with
  | profile :: _ => id profile
  | [] => PROFILE_CREATE
  end.

(** The profiles the resolver sees in what the selector returned: those of
    a cached list; an inherited member has no element [0], like the empty
    list. *)
Definition storedProfiles (found : Stored) : list Profile :=
  match found with
  | Array l => l
  | Member _ => []
  end.

(** The own properties of [profiles] after the create callback ran for
    [key]: unchanged when the callback throws. *)
Definition appended (own : gmap string (list Profile)) (key : string)
  (profile : Profile) : gmap string (list Profile) :=
  match index own key with
  | Some (Member _) => own
  | Some (Array l) => <[key := l ++ [profile]]> own
  | None => <[key := [profile]]> own
  end.

(** The list cached under a property ID, the empty list when there is
    none. *)
Definition cachedList (state : State) (propertyID : string) : list Profile :=
  match baseSelectors.getProfiles state propertyID with
  | Some (Array l) => l
  | _ => []
  end.

(** The resolver's last step on a state: select a profile unless one is
    selected already. *)
Definition selectProfile_state `{Util} (l : list Profile) (state : State) : State :=
  if truthy (getProfileID state) then state
  else reducer state (SET_PROFILE_ID (firstProfileID l)).

(** The state after a suspended [getProfiles] resolver is resumed. *)
Definition getProfiles_settle `{Util} (propertyID : string)
  (o : Outcome (list Profile)) (state : State) : State :=
  match o with
  | Resolved l =>
      selectProfile_state l
        (reducer (reducer state (RECEIVE_GET_PROFILES l propertyID))
           (FINISH_FETCH_GET_PROFILES propertyID))
  | Rejected e => reducer state (CATCH_FETCH_GET_PROFILES e propertyID)
  end.

(** The state after a suspended [createProfile] action is resumed. *)
Definition createProfile_settle (params : CreateParams)
  (o : Outcome Profile) (state : State) : State :=
  match o with
  | Resolved profile =>
      reducer (reducer state (RECEIVE_CREATE_PROFILE profile params))
        (FINISH_FETCH_CREATE_PROFILE params)
  | Rejected e => reducer state (CATCH_FETCH_CREATE_PROFILE e params)
  end.

(** A suspended generator of this store is a [getProfiles] resolver waiting
    for its profiles or a [createProfile] action waiting for its profile,
    and resuming it finishes it. *)
Definition wf_process `{Util} (p : Process) : Prop :=
  match p with
  | ResolverRun (Await_get req k) =>
      ∃ propertyID,
        req = fetchGetProfilesStore.controlCallback propertyID ∧
        ∀ o state, run (k o) state = (getProfiles_settle propertyID o state, Return ())
  | ActionRun (Await_set req k) =>
      ∃ params,
        req = fetchCreateProfileStore.controlCallback params ∧
        ∀ o state, run (k o) state = (createProfile_settle params o state, Return (result_of o))
  | _ => False
  end.

(** The property IDs whose profiles request is in flight. *)
Definition pendingProfiles (l : list Process) : list string :=
  omap (λ p, match p with
             | ResolverRun (Await_get (API_get_profiles _ propertyID) _) => Some propertyID
             | _ => None
             end) l.

(** The property IDs whose profiles have been requested. *)
Definition requestedProfiles (l : list Request) : list string :=
  omap (λ req, match req with
               | API_get_profiles _ propertyID => Some propertyID
               | _ => None
               end) l.

(** *** The steps of a registry whose suspended generators are well formed *)

Inductive Step `{Util} (r : Registry) : Event → Registry → Output → Prop :=
| Step_read_again propertyID :
    propertyID ∈ resolution r →
    Step r (Read propertyID) r
      (Selected (baseSelectors.getProfiles (store r) propertyID))
| Step_read_invalid propertyID :
    propertyID ∉ resolution r →
    isValidPropertyID propertyID = false →
    Step r (Read propertyID)
      {| store := store r; resolution := {[propertyID]} ∪ resolution r;
         inflight := inflight r; calls := calls r |}
      (Selected (baseSelectors.getProfiles (store r) propertyID))
| Step_read_cached propertyID found :
    propertyID ∉ resolution r →
    isValidPropertyID propertyID = true →
    baseSelectors.getProfiles (store r) propertyID = Some found →
    Step r (Read propertyID)
      {| store := selectProfile_state (storedProfiles found) (store r);
         resolution := {[propertyID]} ∪ resolution r;
         inflight := inflight r; calls := calls r |}
      (Selected (Some found))
| Step_read_fetch propertyID k :
    propertyID ∉ resolution r →
    isValidPropertyID propertyID = true →
    baseSelectors.getProfiles (store r) propertyID = None →
    (∀ o state, run (k o) state = (getProfiles_settle propertyID o state, Return ())) →
    Step r (Read propertyID)
      {| store := reducer (store r) (START_FETCH_GET_PROFILES propertyID);
         resolution := {[propertyID]} ∪ resolution r;
         inflight := inflight r ++
           [ResolverRun (Await_get (fetchGetProfilesStore.controlCallback propertyID) k)];
         calls := calls r ++ [fetchGetProfilesStore.controlCallback propertyID] |}
      (Selected None)
| Step_create_invalid propertyID profileName msg :
    isValidPropertyID propertyID && isValidProfileName profileName = false →
    Step r (Create propertyID profileName) r (Threw msg)
| Step_create propertyID profileName k :
    isValidPropertyID propertyID = true →
    isValidProfileName profileName = true →
    (∀ o state, run (k o) state =
       (createProfile_settle (propertyID, profileName) o state, Return (result_of o))) →
    Step r (Create propertyID profileName)
      {| store := reducer (store r) (START_FETCH_CREATE_PROFILE (propertyID, profileName));
         resolution := resolution r;
         inflight := inflight r ++
           [ActionRun (Await_set
              (fetchCreateProfileStore.controlCallback (propertyID, profileName)) k)];
         calls := calls r ++
           [fetchCreateProfileStore.controlCallback (propertyID, profileName)] |}
      Nothing
| Step_respond_get slot o propertyID k :
    inflight r !! slot =
      Some (ResolverRun (Await_get (fetchGetProfilesStore.controlCallback propertyID) k)) →
    Step r (Respond_get slot o)
      {| store := getProfiles_settle propertyID o (store r);
         resolution := resolution r;
         inflight := delete slot (inflight r); calls := calls r |}
      Nothing
| Step_respond_set slot o params k :
    inflight r !! slot =
      Some (ActionRun (Await_set (fetchCreateProfileStore.controlCallback params) k)) →
    Step r (Respond_set slot o)
      {| store := createProfile_settle params o (store r);
         resolution := resolution r;
         inflight := delete slot (inflight r); calls := calls r |}
      (Returned (result_of o))
| Step_respond_get_idle slot o : Step r (Respond_get slot o) r Nothing
| Step_respond_set_idle slot o : Step r (Respond_set slot o) r Nothing.

(** *** The invariant of the registry

    Every suspended generator is well formed; a property ID is flagged as
    fetching exactly while its profiles request is in flight; no property
    ID has two requests in flight, or was requested twice; and whatever was
    flagged, requested or is in flight had its resolver started. *)
Record Inv `{Util} (r : Registry) : Prop := {
  Inv_wf : Forall wf_process (inflight r);
  Inv_fetching : ∀ pid,
    isFetchingGetProfiles (store r) !! pid = Some true ↔
    pid ∈ pendingProfiles (inflight r);
  Inv_pending : NoDup (pendingProfiles (inflight r));
  Inv_started : ∀ pid,
    is_Some (isFetchingGetProfiles (store r) !! pid) → pid ∈ resolution r;
  Inv_requested : NoDup (requestedProfiles (calls r));
  Inv_requested_started : ∀ pid,
    pid ∈ requestedProfiles (calls r) → pid ∈ resolution r;
  Inv_pending_requested : ∀ pid,
    pid ∈ pendingProfiles (inflight r) → pid ∈ requestedProfiles (calls r);
}.

(** *** Keys nothing has touched *)

(** The property IDs under which a [createProfile] call has succeeded along
    a trace that starts in [r]. *)
Fixpoint createdUnder `{Util} (r : Registry) (trace : list Event) : list string :=
  match trace with
  | [] => []
  | ev :: trace' =>
      (match ev with
       | Respond_set slot (Resolved _) =>
           match inflight r !! slot with
           | Some (ActionRun (Await_set (API_set_create_profile _ propertyID _) _)) =>
               [propertyID]
           | _ => []
           end
       | _ => []
       end) ++ createdUnder (step r ev).1 trace'
  end.

(** Nothing is cached, in flight or requested for the property ID. *)
Definition untouched (r : Registry) (propertyID : string) : Prop :=
  (baseSelectors.getProfiles (store r) propertyID = None) ∧
  (propertyID ∉ pendingProfiles (inflight r)) ∧
  (propertyID ∉ requestedProfiles (calls r)).

(** *** Answering a request in flight *)

(** The generator in [slot] waits for the profiles of [propertyID]. *)
Definition awaitsProfiles `{Util} (r : Registry) (slot : nat) (propertyID : string) : Prop :=
  process_awaited <$> (inflight r !! slot) =
    Some (Some (fetchGetProfilesStore.controlCallback propertyID)).

(** The generator in [slot] waits for the profile created with [params]. *)
Definition awaitsCreate `{Util} (r : Registry) (slot : nat) (params : CreateParams) : Prop :=
  process_awaited <$> (inflight r !! slot) =
    Some (Some (fetchCreateProfileStore.controlCallback params)).

(** *** Counting the profiles requests of a property ID *)

(** How many profiles requests were sent for the property ID. *)
Definition profilesRequests (r : Registry) (propertyID : string) : nat :=
  length (filter (λ p, p = propertyID) (requestedProfiles (calls r))).

(** *** The status of a cache entry *)

Inductive Status := unfetched | fetching | fetched | errored.

(** The status of the profiles of a property ID, read off the state: it is
    fetching while flagged in [isFetchingGetProfiles]; otherwise fetched if
    the selector returns a value, errored if a fetch has settled without
    one, and unfetched if none was ever started. *)
Definition entryStatus (state : State) (propertyID : string) : Status :=
  match isFetchingGetProfiles state !! propertyID,
        baseSelectors.getProfiles state propertyID with
  | Some true, _ => fetching
  | _, Some _ => fetched
  | Some false, None => errored
  | None, None => unfetched
  end.

(** The position of a status along unfetched, fetching, then fetched or
    errored. *)
Definition rank (st : Status) : nat :=
  match st with
  | unfetched => 0
  | fetching => 1
  | fetched | errored => 2
  end.

(** The moves of the status of [propertyID] in one step of the registry
    [r]: it stays; or a read of the property ID takes it from unfetched to
    fetching; or the network answer to its profiles request takes it from
    fetching to fetched or errored; or the success of a [createProfile] call
    under it puts a list under a key that had none, which takes it from
    unfetched or errored to fetched. *)
Definition moves `{Util} (r : Registry) (propertyID : string)
  (before after : Status) (ev : Event) : Prop :=
  after = before ∨
  (before = unfetched ∧ after = fetching ∧ ev = Read propertyID) ∨
  (before = fetching ∧ (after = fetched ∨ after = errored) ∧
   ∃ slot o, ev = Respond_get slot o ∧ awaitsProfiles r slot propertyID) ∨
  ((before = unfetched ∨ before = errored) ∧ after = fetched ∧
   ∃ slot profileName profile,
     ev = Respond_set slot (Resolved profile) ∧
     awaitsCreate r slot (propertyID, profileName)).

(** The state after the profiles of [created] were created one after the
    other under [propertyID], each with its own profile name, or the error
    of the first creation that throws. *)
Definition createAll (propertyID : string) (created : list (Profile * string))
  (state : State) : Thrown State :=
  foldl (λ (sofar : Thrown State) c,
           state' ← sofar;
           fetchCreateProfileStore.reducerCallback state' c.1 (propertyID, c.2))
    (Value state) created.



(** The chain of the spec: a status stays, or goes from unfetched to
    fetching, or from fetching to fetched or errored. *)
Definition chain (before after : Status) : Prop :=
  after = before ∨
  (before = unfetched ∧ after = fetching) ∨
  (before = fetching ∧ (after = fetched ∨ after = errored)).

(** ** JavaScript values

    The objects handled by the Optimize set-up filter and by the AdSense
    settings filter.  Objects are finite maps from property names to
    values; an object graph is taken to be a tree, so an update of a nested
    object is written back into its parent. *)
Local Unset Elimination Schemes.
Inductive JSValue :=
| JSUndefined
| JSNull
| JSBool (b : bool)
| JSNumber (n : Z)
| JSString (s : string)
| JSObject (fields : gmap string JSValue).
Local Set Elimination Schemes.

Definition js_truthy (v : JSValue) : bool :=
  match v with
  | JSUndefined | JSNull => false
  | JSBool b => b
  | JSNumber n => negb (n =? 0)%Z
  | JSString s => negb (String.eqb s "")
  | JSObject _ => true
  end.

(** [o.key], for the property names read in this development (none of them
    is a property of a primitive): reading a property of [undefined] or
    [null] throws a [TypeError]. *)
Definition js_get (o : JSValue) (key : string) : Thrown JSValue :=
  match o with
  | JSUndefined | JSNull => Throws "TypeError"
  | JSObject fields => Value (default JSUndefined (fields !! key))
  | _ => Value JSUndefined
  end.

(** [o.key = v] in module code, which is strict: anything but an object
    throws a [TypeError]. *)
Definition js_set (o : JSValue) (key : string) (v : JSValue) : Thrown JSValue :=
  match o with
  | JSObject fields => Value (JSObject (<[key := v]> fields))
  | _ => Throws "TypeError"
  end.

(** [o.p1.p2...key = v]: the object after the assignment. *)
Fixpoint js_assign (path : list string) (key : string) (v : JSValue) (o : JSValue)
  : Thrown JSValue :=
  match path with
  | [] => js_set o key v
  | p :: path' =>
      inner ← js_get o p;
      inner' ← js_assign path' key v inner;
      js_set o p inner'
  end.

(** Statements that mutate the object a function was given: the object as
    they leave it, and whether they completed or threw. *)
Definition Mutation (A : Type) : Type := JSValue → JSValue * Thrown A.

Definition assign (path : list string) (key : string) (v : JSValue) : Mutation () :=
  λ o, match js_assign path key v o with
       | Value o' => (o', Value ())
       | Throws msg => (o, Throws msg)
       end.

Definition andThen {A} (first : Mutation ()) (next : Mutation A) : Mutation A :=
  λ o, match first o with
       | (o', Value _) => next o'
       | (o', Throws msg) => (o', Throws msg)
       end.

(** ** Optimize module initialization *)

Module optimize.

Definition slug : string := "optimize".

(** The filter callback: it mutates [winData] and returns it ([Value ()]
    stands for the return of the mutated object itself).  [__] is the
    translation function of the i18n package. *)
Definition setupWinNotification (__ : string → string → string) : Mutation () :=
  andThen
    (assign [] "description"
       (JSString (__ "To set up experiments and see the results, go to "
                     "google-site-kit")))
    (andThen
       (assign ["learnMore"] "label" (JSString "Optimize"))
       (assign ["learnMore"] "url" (JSString "https://optimize.withgoogle.com/"))).

(** A call of [addFilter( hookName, namespace, callback )]. *)
Record Filter := {
  hookName : string;
  namespace : string;
  callback : Mutation ();
}.

(** The body of the module, given what [getModulesData()] returned: the
    filters it adds, or the error it throws. *)
Definition init (__ : string → string → string) (modulesData : JSValue)
  : Thrown (list Filter) :=
  module ← js_get modulesData "optimize";
  active ← js_get module "active";
  if js_truthy active then
    Value [ {| hookName := "googlesitekit.SetupWinNotification-" +:+ slug;
               namespace := "googlesitekit.OptimizeSetupWinNotification";
               callback := setupWinNotification __ |} ]
  else Value [].

End optimize.

(** ** AdSense settings: the [googlekit.SettingsConfirmed] filter *)

Module adsenseSettingsEdit.

(** How a promise settles. *)
Inductive Settled :=
| Fulfilled (value : JSValue)
| RejectedWith (reason : JSValue).

(** What the promise of the async filter callback does: it follows [chain],
    or it settles by itself. *)
Inductive Confirmation :=
| Follows (chain : JSValue)
| Settles (s : Settled).

(** ['adsense-module' === module] *)
Definition isAdSenseModule (module : JSValue) : bool :=
  match module with
  | JSString s => String.eqb "adsense-module" s
  | _ => false
  end.

(** The callback added to [googlekit.SettingsConfirmed], given how the
    promise of [submitChanges()] settles: how often [submitChanges] was
    called, and what the callback's promise does. *)
Definition settingsConfirmed (submitChanges : Settled) (chain module : JSValue)
  : nat * Confirmation :=
  if isAdSenseModule module then
    match submitChanges with
    | RejectedWith reason => (1, Settles (RejectedWith reason))
    | Fulfilled value =>
        (* const { error } = await submitChanges() || {}; *)
        let result := if js_truthy value then value else JSObject ∅ in
        match js_get result "error" with
        | Value error =>
            if js_truthy error then (1, Settles (RejectedWith error))
            else (1, Settles (Fulfilled JSUndefined))
        | Throws msg => (1, Settles (RejectedWith (JSString msg)))
        end
    end
  else (0, Follows chain).

End adsenseSettingsEdit.

(** ** Sample data, to evaluate the model *)

(** A concrete choice of the helpers, to evaluate the model on examples:
    a property ID is [UA-<digits>-<digits>] and its account ID is the first
    run of digits; a profile name has a character that is not a space. *)
Definition isDigit (c : ascii) : bool :=
  (48 <=? nat_of_ascii c)%nat && (nat_of_ascii c <=? 57)%nat.

Definition allDigits (s : string) : bool :=
  negb (String.eqb s "") && forallb isDigit (String.list_ascii_of_string s).

(** The pieces of a string between its dashes. *)
Fixpoint segments (s : string) : list string :=
  match s with
  | EmptyString => [EmptyString]
  | String c s' =>
      match segments s' with
      | seg :: rest =>
          if Ascii.eqb c "-" then EmptyString :: seg :: rest
          else String c seg :: rest
      | [] => []
      end
  end.

Definition sampleUtil : Util :=
  {| isValidPropertyID := λ s,
       match segments s with
       | [ua; account; property] =>
           String.eqb ua "UA" && allDigits account && allDigits property
       | _ => false
       end;
     isValidProfileName := λ s,
       existsb (λ c, negb (Ascii.eqb c " ")) (String.list_ascii_of_string s);
     parsePropertyID := λ s,
       match segments s with
       | [_; account; _] => account
       | _ => ""
       end;
     PROFILE_CREATE := "profile_create" |}.

Definition sampleProfile : Profile :=
  {| id := "123456789"; name := "All Web Site Data" |}.

Definition sampleError : Error :=
  {| code := "internal_server_error"; message := "Internal server error";
     status := 500 |}.

(** ** Lemmas about the model *)

Section Profiles.
Context `{Util}.

Lemma run_createProfile_invalidID propertyID profileName state :
  isValidPropertyID propertyID = false →
  run (baseActions.createProfile propertyID profileName) state =
    (state, Raise "a valid property ID is required to create a profile.").
Proof. intros Hv. unfold baseActions.createProfile, invariant. by rewrite Hv. Qed.

Lemma run_createProfile_invalidName propertyID profileName state :
  isValidPropertyID propertyID = true →
  isValidProfileName profileName = false →
  run (baseActions.createProfile propertyID profileName) state =
    (state, Raise "a valid name is required to create a profile.").
Proof.
  intros Hv Hn. unfold baseActions.createProfile, invariant. by rewrite Hv, Hn.
Qed.

Lemma run_createProfile_valid propertyID profileName state :
  isValidPropertyID propertyID = true →
  isValidProfileName profileName = true →
  ∃ k,
    run (baseActions.createProfile propertyID profileName) state =
      (reducer state (START_FETCH_CREATE_PROFILE (propertyID, profileName)),
       Await_set (fetchCreateProfileStore.controlCallback (propertyID, profileName)) k) ∧
    ∀ o state', run (k o) state' =
      (createProfile_settle (propertyID, profileName) o state', Return (result_of o)).
Proof.
  intros Hv Hn.
  unfold baseActions.createProfile, fetchCreateProfile,
    fetchCreateProfileStore.argsToParams, invariant.
  rewrite Hv, Hn. cbn. eexists. split; [reflexivity|].
  intros [profile|e] state'; reflexivity.
Qed.

Lemma run_getProfiles_invalid propertyID state :
  isValidPropertyID propertyID = false →
  run (baseResolvers.getProfiles propertyID) state = (state, Return ()).
Proof. intros Hv. unfold baseResolvers.getProfiles. by rewrite Hv. Qed.

Lemma firstProfileID_lookup (l : list Profile) :
  match l !! 0%nat with Some profile => id profile | None => PROFILE_CREATE end
  = firstProfileID l.
Proof. by destruct l. Qed.

Lemma run_selectProfile found state :
  run (baseResolvers.selectProfile (Some found)) state =
    (selectProfile_state (storedProfiles found) state, Return ()).
Proof.
  unfold baseResolvers.selectProfile, selectProfile_state. cbn.
  destruct found as [l|key]; cbn; [rewrite firstProfileID_lookup|];
    by destruct (truthy (getProfileID state)).
Qed.

Lemma run_getProfiles_cached propertyID state found :
  isValidPropertyID propertyID = true →
  baseSelectors.getProfiles state propertyID = Some found →
  run (baseResolvers.getProfiles propertyID) state =
    (selectProfile_state (storedProfiles found) state, Return ()).
Proof.
  intros Hv Hc. unfold baseResolvers.getProfiles. rewrite Hv. cbn.
  rewrite Hc. cbn. apply run_selectProfile.
Qed.

Lemma run_getProfiles_fetch propertyID state :
  isValidPropertyID propertyID = true →
  baseSelectors.getProfiles state propertyID = None →
  ∃ k,
    run (baseResolvers.getProfiles propertyID) state =
      (reducer state (START_FETCH_GET_PROFILES propertyID),
       Await_get (fetchGetProfilesStore.controlCallback propertyID) k) ∧
    ∀ o state', run (k o) state' =
      (getProfiles_settle propertyID o state', Return ()).
Proof.
  intros Hv Hc. unfold baseResolvers.getProfiles. rewrite Hv. cbn.
  rewrite Hc. unfold fetchGetProfiles, fetchGetProfilesStore.argsToParams, invariant.
  rewrite Hv. cbn. eexists. split; [reflexivity|].
  intros [l|e] state'; cbn.
  - rewrite firstProfileID_lookup. unfold selectProfile_state.
    by destruct (truthy _).
  - reflexivity.
Qed.

(** *** The steps of a registry whose suspended generators are well formed *)

Lemma spawn_None wrap state r :
  spawn wrap None state r =
    {| store := state; resolution := resolution r;
       inflight := inflight r; calls := calls r |}.
Proof. unfold spawn. cbn. by rewrite !app_nil_r. Qed.

Lemma resume_None slot wrap state r :
  resume slot wrap None state r =
    {| store := state; resolution := resolution r;
       inflight := delete slot (inflight r); calls := calls r |}.
Proof. unfold resume. cbn. by rewrite app_nil_r. Qed.

Lemma Registry_eta r :
  {| store := store r; resolution := resolution r;
     inflight := inflight r; calls := calls r |} = r.
Proof. by destruct r. Qed.

Lemma step_Step r ev :
  Forall wf_process (inflight r) →
  Step r ev (step r ev).1 (step r ev).2.
Proof.
  intros Hwf. destruct ev as [pid|pid pname|slot o|slot o]; cbn.
  - case_decide as Hres; [by constructor|].
    destruct (isValidPropertyID pid) eqn:Hv.
    + destruct (baseSelectors.getProfiles (store r) pid) as [l|] eqn:Hc.
      * rewrite (run_getProfiles_cached _ _ l) by done. cbn.
        rewrite spawn_None. unfold startResolution; cbn. by apply Step_read_cached.
      * destruct (run_getProfiles_fetch pid (store r)) as (k & -> & Hk); [done..|].
        unfold startResolution; cbn. by apply Step_read_fetch.
    + rewrite run_getProfiles_invalid by done. cbn.
      rewrite spawn_None. unfold startResolution; cbn. by apply Step_read_invalid.
  - destruct (isValidPropertyID pid) eqn:Hv.
    + destruct (isValidProfileName pname) eqn:Hn.
      * destruct (run_createProfile_valid pid pname (store r)) as (k & -> & Hk); [done..|].
        cbn. by apply Step_create.
      * rewrite run_createProfile_invalidName by done. cbn.
        rewrite spawn_None, Registry_eta. apply Step_create_invalid.
        by rewrite Hv, Hn.
    + rewrite run_createProfile_invalidID by done. cbn.
      rewrite spawn_None, Registry_eta. apply Step_create_invalid.
      by rewrite Hv.
  - destruct (inflight r !! slot) as [p|] eqn:Hp; [|constructor].
    pose proof (Forall_lookup_1 _ _ _ _ Hwf Hp) as Hwfp.
    destruct p as [g|g]; destruct g; cbn in Hwfp; try done; [|constructor].
    destruct Hwfp as (pid & -> & Hk). rewrite Hk. cbn.
    rewrite resume_None. by eapply Step_respond_get.
  - destruct (inflight r !! slot) as [p|] eqn:Hp; [|constructor].
    pose proof (Forall_lookup_1 _ _ _ _ Hwf Hp) as Hwfp.
    destruct p as [g|g]; destruct g; cbn in Hwfp; try done; [constructor|].
    destruct Hwfp as (params & -> & Hk). rewrite Hk. cbn.
    rewrite resume_None. by eapply Step_respond_set.
Qed.

(** *** How the closed forms act on the fields of the state *)

Lemma profiles_selectProfile_state l state :
  profiles (selectProfile_state l state) = profiles state.
Proof. unfold selectProfile_state. by destruct (truthy _). Qed.

Lemma isFetchingGetProfiles_selectProfile_state l state :
  isFetchingGetProfiles (selectProfile_state l state) = isFetchingGetProfiles state.
Proof. unfold selectProfile_state. by destruct (truthy _). Qed.


Lemma storedError_selectProfile_state l state :
  storedError (selectProfile_state l state) = storedError state.
Proof. unfold selectProfile_state. by destruct (truthy _). Qed.

Lemma profileID_selectProfile_state l state :
  profileID (selectProfile_state l state) =
    if truthy (getProfileID state) then getProfileID state
    else Some (firstProfileID l).
Proof. unfold selectProfile_state. by destruct (truthy _). Qed.

Lemma profiles_getProfiles_settle propertyID o state :
  profiles (getProfiles_settle propertyID o state) =
    match o with
    | Resolved l => <[propertyID := l]> (profiles state)
    | Rejected _ => profiles state
    end.
Proof.
  destruct o as [l|e]; cbn; [|done]. by rewrite profiles_selectProfile_state.
Qed.

Lemma isFetchingGetProfiles_getProfiles_settle propertyID o state :
  isFetchingGetProfiles (getProfiles_settle propertyID o state) =
    <[propertyID := false]> (isFetchingGetProfiles state).
Proof.
  destruct o as [l|e]; cbn; [|done].
  by rewrite isFetchingGetProfiles_selectProfile_state.
Qed.

Lemma storedError_getProfiles_settle propertyID o state :
  storedError (getProfiles_settle propertyID o state) =
    match o with
    | Resolved _ => storedError state
    | Rejected e => Some e
    end.
Proof.
  destruct o as [l|e]; cbn; [|done]. by rewrite storedError_selectProfile_state.
Qed.

Lemma index_None own key :
  index own key = None ↔ own !! key = None ∧ inherited key = false.
Proof.
  unfold index. destruct (own !! key); [by split; [|intros []]|].
  destruct (inherited key); by split; [|intros []].
Qed.

Lemma index_Array own key l :
  index own key = Some (Array l) ↔ own !! key = Some l.
Proof.
  unfold index. destruct (own !! key); [split; congruence|].
  by destruct (inherited key).
Qed.

Lemma index_ext own own' key :
  own' !! key = own !! key → index own' key = index own key.
Proof. unfold index. by intros ->. Qed.

Lemma index_insert_eq own key l : index (<[key := l]> own) key = Some (Array l).
Proof. unfold index. by rewrite lookup_insert_eq. Qed.

Lemma index_insert_ne own key key' l :
  key ≠ key' → index (<[key := l]> own) key' = index own key'.
Proof. intros Hne. unfold index. by rewrite lookup_insert_ne. Qed.

Lemma appended_own own key profile :
  inherited key = false →
  appended own key profile = <[key := default [] (own !! key) ++ [profile]]> own.
Proof.
  intros Hi. unfold appended, index. rewrite Hi. by destruct (own !! key).
Qed.

Lemma appended_lookup_ne own key key' profile :
  key ≠ key' → appended own key profile !! key' = own !! key'.
Proof.
  intros Hne. unfold appended.
  destruct (index own key) as [[]|]; [|done|]; by rewrite lookup_insert_ne.
Qed.

Lemma appended_is_Some own key key' profile :
  is_Some (own !! key') → is_Some (appended own key profile !! key').
Proof.
  intros Hs. destruct (decide (key = key')) as [->|Hne];
    [|by rewrite appended_lookup_ne].
  unfold appended, index. destruct Hs as [l ->]. by rewrite lookup_insert_eq.
Qed.

Lemma profiles_createProfile_settle params o state :
  profiles (createProfile_settle params o state) =
    match o with
    | Resolved profile => appended (profiles state) params.1 profile
    | Rejected _ => profiles state
    end.
Proof.
  destruct o as [profile|e], params as [pid pname]; [|done].
  unfold appended. cbn.
  by destruct (index (profiles state) pid) as [[]|].
Qed.

Lemma isFetchingGetProfiles_createProfile_settle params o state :
  isFetchingGetProfiles (createProfile_settle params o state) =
    isFetchingGetProfiles state.
Proof.
  destruct o as [profile|e], params as [pid pname]; [|done]. cbn.
  by destruct (index (profiles state) pid) as [[]|].
Qed.



(** *** Deleting from a list under [omap] *)

Lemma omap_delete_None {A B} (f : A → option B) (l : list A) i x :
  l !! i = Some x → f x = None → omap f (delete i l) = omap f l.
Proof.
  revert i. induction l as [|a l IH]; intros [|i] Hl Hf; simplify_eq/=.
  - by rewrite Hf.
  - by rewrite (IH i).
Qed.

Lemma omap_delete_Some {A B} (f : A → option B) (l : list A) i x y :
  l !! i = Some x → f x = Some y → omap f l ≡ₚ y :: omap f (delete i l).
Proof.
  revert i. induction l as [|a l IH]; intros [|i] Hl Hf; simplify_eq/=.
  - by rewrite Hf.
  - destruct (f a); [|by apply (IH i)].
    rewrite (IH i) by done. apply Permutation_swap.
Qed.

Lemma pendingProfiles_snoc_resolver l propertyID k :
  pendingProfiles
    (l ++ [ResolverRun (Await_get (fetchGetProfilesStore.controlCallback propertyID) k)])
  = pendingProfiles l ++ [propertyID].
Proof. unfold pendingProfiles. by rewrite omap_app. Qed.

Lemma pendingProfiles_snoc_action l g :
  pendingProfiles (l ++ [ActionRun g]) = pendingProfiles l.
Proof. unfold pendingProfiles. rewrite omap_app. cbn. by rewrite app_nil_r. Qed.

Lemma pendingProfiles_delete_resolver l slot propertyID k :
  l !! slot =
    Some (ResolverRun (Await_get (fetchGetProfilesStore.controlCallback propertyID) k)) →
  pendingProfiles l ≡ₚ propertyID :: pendingProfiles (delete slot l).
Proof. intros Hl. by eapply omap_delete_Some. Qed.

Lemma pendingProfiles_delete_action l slot g :
  l !! slot = Some (ActionRun g) →
  pendingProfiles (delete slot l) = pendingProfiles l.
Proof. intros Hl. by eapply omap_delete_None. Qed.

Lemma requestedProfiles_snoc_get l propertyID :
  requestedProfiles (l ++ [fetchGetProfilesStore.controlCallback propertyID])
  = requestedProfiles l ++ [propertyID].
Proof. unfold requestedProfiles. by rewrite omap_app. Qed.

Lemma requestedProfiles_snoc_set l params :
  requestedProfiles (l ++ [fetchCreateProfileStore.controlCallback params])
  = requestedProfiles l.
Proof.
  unfold requestedProfiles. rewrite omap_app. destruct params. cbn.
  by rewrite app_nil_r.
Qed.

(** *** The invariant holds along every run *)

Lemma Inv_createRegistry : Inv createRegistry.
Proof.
  split; cbn; try by constructor.
  - intros pid. rewrite lookup_empty. split; [done|]. by intros ?%elem_of_nil.
  - intros pid. rewrite lookup_empty. by intros [? ?].
  - by intros pid ?%elem_of_nil.
  - by intros pid ?%elem_of_nil.
Qed.

Lemma Inv_Step r ev r' out : Inv r → Step r ev r' out → Inv r'.
Proof.
  intros [Hwf Hfl Hnd Hst Hrq Hrs Hpr] HS.
  destruct HS as [pid Hin|pid Hnin Hv|pid l Hnin Hv Hc|pid k Hnin Hv Hc Hk
                 |pid pname msg Hv|pid pname k Hv Hn Hk
                 |slot o pid k Hp|slot o params k Hp|slot o|slot o].
  - by split.
  - split; cbn [store resolution inflight calls reducer isFetchingGetProfiles set_isFetchingGetProfiles set_isFetchingCreateProfile]; try done.
    + intros pid' Hs. apply elem_of_union_r. by apply Hst.
    + intros pid' Hs. apply elem_of_union_r. by apply Hrs.
  - split; cbn [store resolution inflight calls reducer isFetchingGetProfiles set_isFetchingGetProfiles set_isFetchingCreateProfile]; rewrite ?isFetchingGetProfiles_selectProfile_state; try done.
    + intros pid' Hs. apply elem_of_union_r. by apply Hst.
    + intros pid' Hs. apply elem_of_union_r. by apply Hrs.
  - assert (pid ∉ pendingProfiles (inflight r)) as Hnp.
    { intros Hin. apply Hnin, Hst. apply Hfl in Hin. by rewrite Hin. }
    assert (pid ∉ requestedProfiles (calls r)) as Hnr.
    { intros Hin. by apply Hnin, Hrs. }
    split; cbn [store resolution inflight calls reducer isFetchingGetProfiles set_isFetchingGetProfiles set_isFetchingCreateProfile];
      rewrite ?pendingProfiles_snoc_resolver, ?requestedProfiles_snoc_get.
    + apply Forall_app. split; [done|]. apply Forall_singleton. by exists pid.
    + intros pid'. rewrite elem_of_app, list_elem_of_singleton.
      destruct (decide (pid' = pid)) as [->|Hne].
      * rewrite lookup_insert_eq. split; [intros _; by right|done].
      * rewrite lookup_insert_ne by done. rewrite Hfl.
        split; [by left|by intros [?|?]].
    + apply NoDup_app. split_and!; [done| |apply NoDup_singleton].
      intros x Hx ->%list_elem_of_singleton. done.
    + intros pid'. destruct (decide (pid' = pid)) as [->|Hne].
      * intros _. by apply elem_of_union_l, elem_of_singleton.
      * rewrite lookup_insert_ne by done. intros Hs.
        apply elem_of_union_r. by apply Hst.
    + apply NoDup_app. split_and!; [done| |apply NoDup_singleton].
      intros x Hx ->%list_elem_of_singleton. done.
    + intros pid'. rewrite elem_of_app, list_elem_of_singleton.
      intros [Hin| ->]; [apply elem_of_union_r; by apply Hrs|].
      by apply elem_of_union_l, elem_of_singleton.
    + intros pid'. rewrite !elem_of_app. intros [Hin|Hin]; [left; by apply Hpr|by right].
  - by split.
  - split; cbn [store resolution inflight calls reducer isFetchingGetProfiles set_isFetchingGetProfiles set_isFetchingCreateProfile];
      rewrite ?pendingProfiles_snoc_action, ?requestedProfiles_snoc_set; try done.
    apply Forall_app. split; [done|]. apply Forall_singleton.
    by exists (pid, pname).
  - pose proof (pendingProfiles_delete_resolver _ _ _ _ Hp) as Hperm.
    assert (NoDup (pid :: pendingProfiles (delete slot (inflight r)))) as Hnd'.
    { by rewrite <- Hperm. }
    apply NoDup_cons in Hnd' as [Hnp Hnd'].
    split; cbn [store resolution inflight calls reducer isFetchingGetProfiles set_isFetchingGetProfiles set_isFetchingCreateProfile]; rewrite ?isFetchingGetProfiles_getProfiles_settle; try done.
    + by apply Forall_delete.
    + intros pid'. destruct (decide (pid' = pid)) as [->|Hne].
      * rewrite lookup_insert_eq. split; [done|by intros ?].
      * rewrite lookup_insert_ne by done. rewrite Hfl, Hperm, elem_of_cons.
        split; [by intros [?|?]|by right].
    + intros pid'. destruct (decide (pid' = pid)) as [->|Hne].
      * intros _. apply Hrs, Hpr. rewrite Hperm. by left.
      * rewrite lookup_insert_ne by done. apply Hst.
    + intros pid' Hin. apply Hpr. rewrite Hperm. by right.
  - pose proof (pendingProfiles_delete_action _ _ _ Hp) as Heq.
    split; cbn [store resolution inflight calls reducer isFetchingGetProfiles set_isFetchingGetProfiles set_isFetchingCreateProfile]; rewrite ?isFetchingGetProfiles_createProfile_settle, ?Heq; try done.
    by apply Forall_delete.
  - by split.
  - by split.
Qed.

Lemma Inv_step r ev : Inv r → Inv (step r ev).1.
Proof.
  intros HI. eapply Inv_Step; [done|]. apply step_Step, HI.
Qed.

Lemma exec_cons r trace ev :
  exec r (ev :: trace) = exec (step r ev).1 trace.
Proof. done. Qed.

Lemma Inv_exec r trace : Inv r → Inv (exec r trace).
Proof.
  revert r. induction trace as [|ev trace IH]; intros r HI; [done|].
  rewrite exec_cons. by apply IH, Inv_step.
Qed.

(** *** Keys nothing has touched *)

Lemma untouched_step r ev pid :
  Inv r → untouched r pid →
  ev ≠ Read pid → pid ∉ createdUnder r [ev] →
  untouched (step r ev).1 pid.
Proof.
  intros HI (Hc & Hp & Hr) Hev Hcr.
  pose proof (step_Step r ev (Inv_wf _ HI)) as HS.
  unfold untouched, baseSelectors.getProfiles in *.
  destruct HS as [pid' Hin|pid' Hnin Hv|pid' l Hnin Hv Hc'|pid' k Hnin Hv Hc' Hk
                 |pid' pname msg Hv|pid' pname k Hv Hn Hk
                 |slot o pid' k Hs|slot o params k Hs|slot o|slot o];
    cbn [store inflight calls]; try done.
  - by rewrite profiles_selectProfile_state.
  - assert (pid ≠ pid') as Hne by congruence.
    rewrite pendingProfiles_snoc_resolver, requestedProfiles_snoc_get.
    rewrite !elem_of_app, !list_elem_of_singleton. cbn.
    split_and!; [done|by intros [?|?]..].
  - by rewrite pendingProfiles_snoc_action, requestedProfiles_snoc_set.
  - pose proof (pendingProfiles_delete_resolver _ _ _ _ Hs) as Hperm.
    assert (pid ≠ pid') as Hne.
    { intros ->. apply Hp. rewrite Hperm. by left. }
    rewrite profiles_getProfiles_settle. split_and!; [|rewrite Hperm in Hp; set_solver|done].
    destruct o; [by rewrite index_insert_ne|done].
  - rewrite (pendingProfiles_delete_action _ _ _ Hs).
    rewrite profiles_createProfile_settle. split_and!; [|done..].
    destruct o as [profile|e]; [|done]. destruct params as [pid' pname].
    cbn in Hcr, Hs. rewrite Hs in Hcr. cbn in Hcr.
    rewrite (index_ext (profiles (store r))); [done|].
    apply appended_lookup_ne. set_solver.
Qed.

Lemma untouched_exec trace r pid :
  Inv r → untouched r pid →
  Read pid ∉ trace → pid ∉ createdUnder r trace →
  untouched (exec r trace) pid.
Proof.
  revert r. induction trace as [|ev trace IH]; intros r HI Hu Hrd Hcr; [done|].
  rewrite exec_cons. apply not_elem_of_cons in Hrd as [Hne Hrd].
  cbn [createdUnder] in Hcr. apply not_elem_of_app in Hcr as [Hcr1 Hcr2].
  apply IH; [by apply Inv_step| |done..].
  apply untouched_step; [done..|]. cbn [createdUnder]. by rewrite app_nil_r.
Qed.

(** *** Answering a request in flight *)

Lemma awaitsProfiles_lookup r slot pid :
  Inv r → awaitsProfiles r slot pid →
  ∃ k, inflight r !! slot =
         Some (ResolverRun (Await_get (fetchGetProfilesStore.controlCallback pid) k)) ∧
       ∀ o state, run (k o) state = (getProfiles_settle pid o state, Return ()).
Proof.
  intros HI Ha. unfold awaitsProfiles in Ha.
  destruct (inflight r !! slot) as [p|] eqn:Hp; [|done].
  pose proof (Forall_lookup_1 _ _ _ _ (Inv_wf _ HI) Hp) as Hwf.
  destruct p as [g|g]; destruct g; cbn in Hwf, Ha; try done.
  - destruct Hwf as (pid' & -> & Hk). simplify_eq/=. eauto.
  - destruct Hwf as ([pid' pname] & -> & Hk). simplify_eq/=.
Qed.

Lemma awaitsCreate_lookup r slot params :
  Inv r → awaitsCreate r slot params →
  ∃ k, inflight r !! slot =
         Some (ActionRun (Await_set (fetchCreateProfileStore.controlCallback params) k)) ∧
       ∀ o state, run (k o) state =
         (createProfile_settle params o state, Return (result_of o)).
Proof.
  intros HI Ha. unfold awaitsCreate in Ha.
  destruct (inflight r !! slot) as [p|] eqn:Hp; [|done].
  pose proof (Forall_lookup_1 _ _ _ _ (Inv_wf _ HI) Hp) as Hwf.
  destruct p as [g|g]; destruct g; cbn in Hwf, Ha; try done.
  - destruct Hwf as (pid' & -> & Hk). destruct params. simplify_eq/=.
  - destruct Hwf as ([pid' pname] & -> & Hk). destruct params. simplify_eq/=. eauto.
Qed.

Lemma step_Respond_get r slot o pid :
  Inv r → awaitsProfiles r slot pid →
  step r (Respond_get slot o) =
    ({| store := getProfiles_settle pid o (store r);
        resolution := resolution r;
        inflight := delete slot (inflight r);
        calls := calls r |}, Nothing).
Proof.
  intros HI Ha. destruct (awaitsProfiles_lookup _ _ _ HI Ha) as (k & Hl & Hk).
  cbn. rewrite Hl, Hk. cbn. by rewrite resume_None.
Qed.

Lemma step_Respond_set r slot o params :
  Inv r → awaitsCreate r slot params →
  step r (Respond_set slot o) =
    ({| store := createProfile_settle params o (store r);
        resolution := resolution r;
        inflight := delete slot (inflight r);
        calls := calls r |}, Returned (result_of o)).
Proof.
  intros HI Ha. destruct (awaitsCreate_lookup _ _ _ HI Ha) as (k & Hl & Hk).
  cbn. rewrite Hl, Hk. cbn. by rewrite resume_None.
Qed.

(** *** Counting the profiles requests of a property ID *)

Lemma NoDup_filter_eq_le (l : list string) x :
  NoDup l → length (filter (λ p, p = x) l) ≤ 1.
Proof.
  induction 1 as [|y l Hy Hnd IH]; [cbn; lia|].
  rewrite filter_cons. case_decide as Heq; [|done].
  subst y. cbn. assert (filter (λ p, p = x) l = []) as ->; [|cbn; lia].
  destruct (filter (λ p, p = x) l) as [|z ?] eqn:Hf; [done|].
  assert (z ∈ filter (λ p, p = x) l) as [-> ?]%list_elem_of_filter; [|done].
  rewrite Hf. by left.
Qed.

Lemma NoDup_filter_eq_one (l : list string) x :
  NoDup l → x ∈ l → length (filter (λ p, p = x) l) = 1.
Proof.
  intros Hnd Hin. pose proof (NoDup_filter_eq_le l x Hnd) as Hle.
  assert (x ∈ filter (λ p, p = x) l) as Hx by by apply list_elem_of_filter.
  destruct (filter (λ p, p = x) l); [by apply elem_of_nil in Hx|cbn in *; lia].
Qed.

Lemma profilesRequests_le r pid : Inv r → profilesRequests r pid ≤ 1.
Proof. intros HI. apply NoDup_filter_eq_le, HI. Qed.

Lemma profilesRequests_pending r pid :
  Inv r → pid ∈ pendingProfiles (inflight r) → profilesRequests r pid = 1.
Proof.
  intros HI Hin. apply NoDup_filter_eq_one; [apply HI|by apply HI].
Qed.

Lemma awaitsProfiles_pending r slot pid :
  Inv r → awaitsProfiles r slot pid → pid ∈ pendingProfiles (inflight r).
Proof.
  intros HI Ha. destruct (awaitsProfiles_lookup _ _ _ HI Ha) as (k & Hl & _).
  rewrite (pendingProfiles_delete_resolver _ _ _ _ Hl). by left.
Qed.

(** *** Which steps send a profiles request *)

Lemma requested_step r ev pid :
  Inv r →
  pid ∉ requestedProfiles (calls r) →
  pid ∈ requestedProfiles (calls (step r ev).1) →
  ev = Read pid ∧ baseSelectors.getProfiles (store r) pid = None.
Proof.
  intros HI Hn.
  pose proof (step_Step r ev (Inv_wf _ HI)) as HS.
  destruct HS as [pid' Hin|pid' Hnin Hv|pid' l Hnin Hv Hc'|pid' k Hnin Hv Hc' Hk
                 |pid' pname msg Hv|pid' pname k Hv Hn' Hk
                 |slot o pid' k Hs|slot o params k Hs|slot o|slot o];
    cbn [calls]; try done.
  - rewrite requestedProfiles_snoc_get, elem_of_app, list_elem_of_singleton.
    intros [?| ->]; done.
  - by rewrite requestedProfiles_snoc_set.
Qed.

Lemma read_known_calls r pid :
  Inv r →
  is_Some (baseSelectors.getProfiles (store r) pid) ∨
    isFetchingGetProfiles (store r) !! pid = Some true →
  calls (step r (Read pid)).1 = calls r.
Proof.
  intros HI Hk. cbn [step]. case_decide as Hres; [done|].
  destruct (isValidPropertyID pid) eqn:Hv.
  - destruct (baseSelectors.getProfiles (store r) pid) as [l|] eqn:Hc.
    + rewrite (run_getProfiles_cached _ _ l) by done. cbn. by rewrite app_nil_r.
    + destruct Hk as [[? ?]|Hf]; [done|].
      destruct Hres. apply (Inv_started _ HI). by rewrite Hf.
  - rewrite run_getProfiles_invalid by done. cbn. by rewrite app_nil_r.
Qed.

(** *** The status of a cache entry *)

Lemma entryStatus_ext state state' pid :
  isFetchingGetProfiles state' !! pid = isFetchingGetProfiles state !! pid →
  profiles state' !! pid = profiles state !! pid →
  entryStatus state' pid = entryStatus state pid.
Proof.
  unfold entryStatus, baseSelectors.getProfiles. intros -> Hown.
  by rewrite (index_ext _ _ _ Hown).
Qed.

Lemma entryStatus_moves r ev pid :
  Inv r →
  moves r pid (entryStatus (store r) pid) (entryStatus (store (step r ev).1) pid) ev.
Proof.
  intros HI.
  pose proof (step_Step r ev (Inv_wf _ HI)) as HS.
  destruct HS as [pid' Hin|pid' Hnin Hv|pid' found Hnin Hv Hc'|pid' k Hnin Hv Hc' Hk
                 |pid' pname msg Hv|pid' pname k Hv Hn' Hk
                 |slot o pid' k Hs|slot o params k Hs|slot o|slot o];
    cbn [store]; try by left.
  - left. apply entryStatus_ext.
    + by rewrite isFetchingGetProfiles_selectProfile_state.
    + by rewrite profiles_selectProfile_state.
  - destruct (decide (pid = pid')) as [->|Hne].
    + assert (isFetchingGetProfiles (store r) !! pid' = None) as Hf.
      { apply eq_None_not_Some. intros Hs. by apply Hnin, (Inv_started _ HI). }
      right; left. unfold entryStatus.
      rewrite Hf, Hc'. cbn. by rewrite lookup_insert_eq.
    + left. apply entryStatus_ext; [cbn|done]. by rewrite lookup_insert_ne.
  - pose proof (pendingProfiles_delete_resolver _ _ _ _ Hs) as Hperm.
    destruct (decide (pid = pid')) as [->|Hne].
    + assert (isFetchingGetProfiles (store r) !! pid' = Some true) as Hf.
      { apply (Inv_fetching _ HI). rewrite Hperm. by left. }
      right; right; left. unfold entryStatus at 1. rewrite Hf. unfold entryStatus.
      rewrite isFetchingGetProfiles_getProfiles_settle, lookup_insert_eq.
      assert (awaitsProfiles r slot pid') as Ha.
      { unfold awaitsProfiles. by rewrite Hs. }
      destruct (baseSelectors.getProfiles _ pid'); split_and!; eauto.
    + left. apply entryStatus_ext.
      * rewrite isFetchingGetProfiles_getProfiles_settle. by rewrite lookup_insert_ne.
      * rewrite profiles_getProfiles_settle. destruct o; [|done].
        by rewrite lookup_insert_ne.
  - destruct o as [profile|e].
    2:{ left. apply entryStatus_ext;
          [by rewrite isFetchingGetProfiles_createProfile_settle
          |by rewrite profiles_createProfile_settle]. }
    destruct (decide (pid = params.1)) as [->|Hne].
    + assert (awaitsCreate r slot (params.1, params.2)) as Ha.
      { unfold awaitsCreate. rewrite Hs. by destruct params. }
      unfold entryStatus, baseSelectors.getProfiles.
      rewrite isFetchingGetProfiles_createProfile_settle,
        profiles_createProfile_settle.
      unfold appended.
      destruct (isFetchingGetProfiles (store r) !! params.1) as [[]|];
        destruct (index (profiles (store r)) params.1) as [[]|] eqn:Hfound;
        rewrite ?index_insert_eq, ?Hfound; try by left.
      all: right; right; right; split_and!; eauto 6.
    + left. apply entryStatus_ext;
        [by rewrite isFetchingGetProfiles_createProfile_settle|].
      rewrite profiles_createProfile_settle. by apply appended_lookup_ne.
Qed.


Lemma moves_rank r pid before after ev :
  moves r pid before after ev → rank before ≤ rank after.
Proof.
  intros [->|[(-> & -> & _)|[(-> & [->| ->] & _)|([->| ->] & -> & _)]]]; cbn; lia.
Qed.

Lemma entryStatus_step r ev pid :
  Inv r →
  rank (entryStatus (store r) pid) ≤ rank (entryStatus (store (step r ev).1) pid).
Proof. intros HI. eapply moves_rank. by apply entryStatus_moves. Qed.

(** *** The in-flight flags of [createProfile] *)

Lemma isDoingCreateProfile_true state :
  baseSelectors.isDoingCreateProfile state = true ↔
  ∃ params, isFetchingCreateProfile state !! params = Some true.
Proof.
  unfold baseSelectors.isDoingCreateProfile. rewrite existsb_exists. split.
  - intros (b & Hin & Hb). unfold baseSelectors.Boolean in Hb. subst b.
    apply list_elem_of_In, list_elem_of_fmap in Hin as ([params b] & Hb & Hin).
    cbn in Hb. subst b. apply elem_of_map_to_list in Hin. by exists params.
  - intros (params & Hl). exists true. split; [|done].
    apply list_elem_of_In, list_elem_of_fmap. exists (params, true).
    split; [done|]. by apply elem_of_map_to_list.
Qed.

(** *** The [createProfile] requests in flight *)










End Profiles.

(** ** The properties of the store *)

Section Properties.
Context `{Util}.

(** C1, amended: for every property ID that is not the name of a member
    every object inherits from [Object.prototype], that has never been read
    and under which no [createProfile] call has succeeded, the
    [getProfiles] selector returns [undefined] and no profiles request has
    been sent for it; the initial state maps no property ID to a profiles
    list (at the name of an inherited member its selector returns that
    member, at every other name [undefined]). *)
Theorem getProfiles_untouched_undefined (trace : list Event) (propertyID : string) :
  inherited propertyID = false →
  Read propertyID ∉ trace →
  propertyID ∉ createdUnder createRegistry trace →
  let r := exec createRegistry trace in
  baseSelectors.getProfiles (store r) propertyID = None ∧
  (propertyID ∉ requestedProfiles (calls r)) ∧
  (∀ other l, baseSelectors.getProfiles BASE_INITIAL_STATE other ≠ Some (Array l)) ∧
  (∀ other,
     baseSelectors.getProfiles BASE_INITIAL_STATE other
     = if inherited other then Some (Member other) else None).
Proof.
  intros Hown Hrd Hcr r.
  destruct (untouched_exec trace createRegistry propertyID) as (Hc & _ & Hq);
    [apply Inv_createRegistry| |done..|].
  - split_and!; [|by intros ?%elem_of_nil..].
    apply index_None. split; [apply lookup_empty|done].
  - split_and!; [done..| |].
    + intros other l Hl. apply index_Array in Hl. cbn in Hl.
      by rewrite lookup_empty in Hl.
    + intros other. unfold baseSelectors.getProfiles, index. cbn.
      by rewrite lookup_empty.
Qed.

(** C2, amended: [createProfile] throws a validation error, before any
    request is sent and leaving the registry as it was, when the property
    ID is not a valid property ID or the profile name is not a valid
    profile name; a read access with an invalid property ID sends no
    request either, but raises nothing: its resolver returns at once and
    the read yields the cached value. *)
Theorem invalid_parameters_send_nothing (r : Registry) (propertyID profileName : string) :
  (isValidPropertyID propertyID && isValidProfileName profileName = false →
   ∃ msg,
     run (baseActions.createProfile propertyID profileName) (store r)
       = (store r, Raise msg) ∧
     step r (Create propertyID profileName) = (r, Threw msg)) ∧
  (isValidPropertyID propertyID = false →
   run (baseResolvers.getProfiles propertyID) (store r) = (store r, Return ()) ∧
   (step r (Read propertyID)).2
     = Selected (baseSelectors.getProfiles (store r) propertyID) ∧
   store (step r (Read propertyID)).1 = store r ∧
   inflight (step r (Read propertyID)).1 = inflight r ∧
   calls (step r (Read propertyID)).1 = calls r).
Proof.
  split.
  - intros Hv. cbn [step].
    destruct (isValidPropertyID propertyID) eqn:Hp.
    + destruct (isValidProfileName profileName) eqn:Hn; [done|].
      eexists. rewrite run_createProfile_invalidName by done.
      split; [done|]. cbn. by rewrite spawn_None, Registry_eta.
    + eexists. rewrite run_createProfile_invalidID by done.
      split; [done|]. cbn. by rewrite spawn_None, Registry_eta.
  - intros Hv. rewrite run_getProfiles_invalid by done. cbn [step].
    case_decide; [done|].
    rewrite run_getProfiles_invalid by done. cbn. by rewrite !app_nil_r.
Qed.

(** C3: when the profiles request of a property ID succeeds, the selector
    afterwards returns exactly the list received: the reducer callback
    stores the received list unchanged under the requested property ID. *)
Theorem fetch_success_caches_response (trace : list Event) (slot : nat)
  (propertyID : string) (received : list Profile) :
  let r := exec createRegistry trace in
  awaitsProfiles r slot propertyID →
  let r' := (step r (Respond_get slot (Resolved received))).1 in
  baseSelectors.getProfiles (store r') propertyID = Some (Array received) ∧
  (∀ state,
     baseSelectors.getProfiles
       (fetchGetProfilesStore.reducerCallback state received propertyID) propertyID
     = Some (Array received)).
Proof.
  intros r Ha r'. split.
  - subst r'. rewrite (step_Respond_get _ _ _ propertyID); [|by apply Inv_exec, Inv_createRegistry|done].
    unfold baseSelectors.getProfiles. cbn [fst store].
    rewrite profiles_getProfiles_settle. apply index_insert_eq.
  - intros state. apply index_insert_eq.
Qed.

(** C4: when the profiles request of a property ID fails, the cached value
    of that property ID remains [undefined], the error selector returns
    the failure payload, and exactly one profiles request was sent for the
    property ID. *)
Theorem fetch_failure_keeps_undefined (trace : list Event) (slot : nat)
  (propertyID : string) (e : Error) :
  let r := exec createRegistry trace in
  awaitsProfiles r slot propertyID →
  baseSelectors.getProfiles (store r) propertyID = None →
  let r' := (step r (Respond_get slot (Rejected e))).1 in
  baseSelectors.getProfiles (store r') propertyID = None ∧
  getError (store r') = Some e ∧
  profilesRequests r' propertyID = 1.
Proof.
  intros r Ha Hc r'.
  assert (Inv r) as HI by apply Inv_exec, Inv_createRegistry.
  subst r'. rewrite (step_Respond_get _ _ _ propertyID) by done.
  split_and!; [done..|].
  by apply (profilesRequests_pending r), (awaitsProfiles_pending r slot).
Qed.

(** C6: when a [createProfile] call succeeds (its property ID passed
    validation and is not the name of a member inherited from
    [Object.prototype]), the created profile is appended to the end of the
    list cached under its property ID (to the empty list when nothing was
    cached), and the lists cached under all other property IDs are
    unchanged. *)
Theorem createProfile_success_appends (trace : list Event) (slot : nat)
  (propertyID profileName : string) (profile : Profile) :
  let r := exec createRegistry trace in
  awaitsCreate r slot (propertyID, profileName) →
  inherited propertyID = false →
  let r' := (step r (Respond_set slot (Resolved profile))).1 in
  baseSelectors.getProfiles (store r') propertyID
    = Some (Array (cachedList (store r) propertyID ++ [profile])) ∧
  (∀ other, other ≠ propertyID →
     baseSelectors.getProfiles (store r') other
     = baseSelectors.getProfiles (store r) other) ∧
  (∀ state,
     ∃ state',
       fetchCreateProfileStore.reducerCallback state profile
         (propertyID, profileName) = Value state' ∧
       baseSelectors.getProfiles state' propertyID
       = Some (Array (cachedList state propertyID ++ [profile])) ∧
       ∀ other, other ≠ propertyID →
         baseSelectors.getProfiles state' other
         = baseSelectors.getProfiles state other).
Proof.
  intros r Ha Hown r'.
  assert (Inv r) as HI by apply Inv_exec, Inv_createRegistry.
  assert (∀ state,
            cachedList state propertyID = default [] (profiles state !! propertyID))
    as Hcached.
  { intros state. unfold cachedList, baseSelectors.getProfiles, index.
    rewrite Hown. by destruct (profiles state !! propertyID). }
  subst r'. rewrite (step_Respond_set _ _ _ (propertyID, profileName)) by done.
  unfold baseSelectors.getProfiles at 1 2 3. cbn [fst store].
  rewrite profiles_createProfile_settle. cbn [fst].
  rewrite appended_own by done. rewrite Hcached.
  split_and!.
  - apply index_insert_eq.
  - intros other Hne. by apply index_insert_ne.
  - intros state.
    exists (set_profiles
              (λ own, <[propertyID :=
                          default [] (profiles state !! propertyID) ++ [profile]]> own)
              state).
    rewrite Hcached. split_and!.
    + unfold fetchCreateProfileStore.reducerCallback, index. rewrite Hown.
      by destruct (profiles state !! propertyID).
    + apply index_insert_eq.
    + intros other Hne. by apply index_insert_ne.
Qed.

(** C7: a [createProfile] call that passed validation and then fails
    returns the error in its [{ response, error }] result, and neither its
    dispatch nor its failure changes the cached profiles of any property
    ID. *)
Theorem createProfile_failure_keeps_cache (trace : list Event)
  (propertyID profileName : string) (e : Error) :
  isValidPropertyID propertyID = true →
  isValidProfileName profileName = true →
  let r := exec createRegistry trace in
  let r1 := (step r (Create propertyID profileName)).1 in
  awaitsCreate r1 (length (inflight r)) (propertyID, profileName) ∧
  profiles (store r1) = profiles (store r) ∧
  (∀ later slot,
     let r2 := exec r1 later in
     awaitsCreate r2 slot (propertyID, profileName) →
     (step r2 (Respond_set slot (Rejected e))).2
       = Returned {| response := None; error := Some e |} ∧
     profiles (store (step r2 (Respond_set slot (Rejected e))).1)
       = profiles (store r2)).
Proof.
  intros Hv Hn r r1.
  assert (Inv r) as HI by apply Inv_exec, Inv_createRegistry.
  assert (Inv r1) as HI1 by apply Inv_step, HI.
  destruct (run_createProfile_valid propertyID profileName (store r))
    as (k & Hrun & Hk); [done..|].
  assert (r1 = spawn (ActionRun (Await_set
                 (fetchCreateProfileStore.controlCallback (propertyID, profileName)) k))
               (Some (fetchCreateProfileStore.controlCallback (propertyID, profileName)))
               (reducer (store r) (START_FETCH_CREATE_PROFILE (propertyID, profileName)))
               r) as Hr1.
  { subst r1. cbn [step]. by rewrite Hrun. }
  split_and!.
  - rewrite Hr1. unfold awaitsCreate, spawn. cbn [inflight].
    by rewrite list_lookup_middle.
  - by rewrite Hr1.
  - intros later slot r2 Ha.
    assert (Inv r2) as HI2 by by apply Inv_exec.
    by rewrite (step_Respond_set _ _ _ (propertyID, profileName)).
Qed.

(** C5: a read of a property ID whose profiles are cached or whose fetch is
    pending sends no request; the resolver sends at most one profiles
    request per property ID, and only for a read at which the selector
    returns [undefined] for it. *)
Theorem reads_fetch_at_most_once (trace : list Event) (propertyID : string) :
  let r := exec createRegistry trace in
  (is_Some (baseSelectors.getProfiles (store r) propertyID) ∨
     isFetchingGetProfiles (store r) !! propertyID = Some true →
   calls (step r (Read propertyID)).1 = calls r) ∧
  profilesRequests r propertyID ≤ 1 ∧
  (∀ ev,
     propertyID ∉ requestedProfiles (calls r) →
     propertyID ∈ requestedProfiles (calls (step r ev).1) →
     ev = Read propertyID ∧
     baseSelectors.getProfiles (store r) propertyID = None) ∧
  (∀ state,
     is_Some (baseSelectors.getProfiles state propertyID) →
     awaited (run (baseResolvers.getProfiles propertyID) state).2 = None).
Proof.
  intros r.
  assert (Inv r) as HI by apply Inv_exec, Inv_createRegistry.
  split_and!.
  - by apply read_known_calls.
  - by apply profilesRequests_le.
  - intros ev. by apply requested_step.
  - intros state [l Hl]. destruct (isValidPropertyID propertyID) eqn:Hv.
    + by rewrite (run_getProfiles_cached _ _ l).
    + by rewrite run_getProfiles_invalid.
Qed.


(** C9: when the [getProfiles] resolver runs with a valid property ID and
    a profiles list is available (cached, or received from the fetch it
    started), the profile ID of the store becomes the id of the first
    profile of the list, or [PROFILE_CREATE] when the list is empty, if no
    profile ID was selected, and is left as it is otherwise. *)
Theorem resolver_selects_first_profile (propertyID : string) (state : State) :
  isValidPropertyID propertyID = true →
  (∀ l,
     baseSelectors.getProfiles state propertyID = Some (Array l) →
     ∃ state',
       run (baseResolvers.getProfiles propertyID) state = (state', Return ()) ∧
       getProfileID state' =
         if truthy (getProfileID state) then getProfileID state
         else Some (match l with
                    | profile :: _ => id profile
                    | [] => PROFILE_CREATE
                    end)) ∧
  (baseSelectors.getProfiles state propertyID = None →
   ∃ k,
     (run (baseResolvers.getProfiles propertyID) state).2
       = Await_get (fetchGetProfilesStore.controlCallback propertyID) k ∧
     ∀ l later,
       ∃ state',
         run (k (Resolved l)) later = (state', Return ()) ∧
         getProfileID state' =
           if truthy (getProfileID later) then getProfileID later
           else Some (match l with
                      | profile :: _ => id profile
                      | [] => PROFILE_CREATE
                      end)).
Proof.
  intros Hv. split.
  - intros l Hl. eexists. split; [by apply (run_getProfiles_cached _ _ (Array l))|].
    apply profileID_selectProfile_state.
  - intros Hn. destruct (run_getProfiles_fetch propertyID state) as (k & Hrun & Hk);
      [done..|].
    exists k. rewrite Hrun. split; [done|].
    intros l later. eexists. split; [apply Hk|].
    cbn [getProfiles_settle]. unfold getProfileID.
    by rewrite profileID_selectProfile_state.
Qed.


End Properties.

(** ** Further properties of the profiles store *)

Section MoreProfiles.
Context `{Util}.

Lemma exec_app r trace later :
  exec r (trace ++ later) = exec (exec r trace) later.
Proof. unfold exec. by rewrite foldl_app. Qed.

Lemma resolution_step r ev pid :
  Inv r →
  pid ∈ resolution (step r ev).1 → pid ∈ resolution r ∨ ev = Read pid.
Proof.
  intros HI.
  pose proof (step_Step r ev (Inv_wf _ HI)) as HS.
  destruct HS; cbn [resolution]; auto;
    rewrite elem_of_union, elem_of_singleton; intros [->|?]; auto.
Qed.

Lemma resolution_exec trace r pid :
  Inv r →
  pid ∈ resolution (exec r trace) → pid ∈ resolution r ∨ Read pid ∈ trace.
Proof.
  revert r. induction trace as [|ev trace IH]; intros r HI Hin; [by left|].
  rewrite exec_cons in Hin.
  destruct (IH _ (Inv_step r ev HI) Hin) as [Hin'|Hin']; [|right; by right].
  destruct (resolution_step r ev pid HI Hin') as [?| ->]; [by left|].
  right. by left.
Qed.

Lemma cached_step r ev pid :
  Inv r →
  is_Some (baseSelectors.getProfiles (store r) pid) →
  is_Some (baseSelectors.getProfiles (store (step r ev).1) pid).
Proof.
  intros HI Hc.
  pose proof (step_Step r ev (Inv_wf _ HI)) as HS.
  unfold baseSelectors.getProfiles in *.
  destruct HS as [pid' Hin|pid' Hnin Hv|pid' l Hnin Hv Hc'|pid' k Hnin Hv Hc' Hk
                 |pid' pname msg Hv|pid' pname k Hv Hn' Hk
                 |slot o pid' k Hs|slot o params k Hs|slot o|slot o];
    cbn [store]; try done.
  - by rewrite profiles_selectProfile_state.
  - rewrite profiles_getProfiles_settle. destruct o as [l|e]; [|done].
    destruct (decide (pid' = pid)) as [->|Hne];
      [by rewrite index_insert_eq|by rewrite index_insert_ne].
  - rewrite profiles_createProfile_settle. destruct o as [profile|e]; [|done].
    unfold appended.
    destruct (index (profiles (store r)) params.1) as [[l|key]|]; [|done|];
      (destruct (decide (params.1 = pid)) as [->|Hne];
         [by rewrite index_insert_eq|by rewrite index_insert_ne]).
Qed.

Lemma cached_exec later r pid :
  Inv r →
  is_Some (baseSelectors.getProfiles (store r) pid) →
  is_Some (baseSelectors.getProfiles (store (exec r later)) pid).
Proof.
  revert r. induction later as [|ev later IH]; intros r HI Hc; [done|].
  rewrite exec_cons. apply IH; [by apply Inv_step|by apply cached_step].
Qed.

Lemma own_step r ev pid :
  Inv r →
  is_Some (profiles (store r) !! pid) →
  is_Some (profiles (store (step r ev).1) !! pid).
Proof.
  intros HI Hc.
  pose proof (step_Step r ev (Inv_wf _ HI)) as HS.
  destruct HS as [pid' Hin|pid' Hnin Hv|pid' l Hnin Hv Hc'|pid' k Hnin Hv Hc' Hk
                 |pid' pname msg Hv|pid' pname k Hv Hn' Hk
                 |slot o pid' k Hs|slot o params k Hs|slot o|slot o];
    cbn [store]; try done.
  - by rewrite profiles_selectProfile_state.
  - rewrite profiles_getProfiles_settle. destruct o as [l|e]; [|done].
    destruct (decide (pid' = pid)) as [->|Hne];
      [by rewrite lookup_insert_eq|by rewrite lookup_insert_ne].
  - rewrite profiles_createProfile_settle. destruct o as [profile|e]; [|done].
    by apply appended_is_Some.
Qed.

Lemma own_exec later r pid :
  Inv r →
  is_Some (profiles (store r) !! pid) →
  is_Some (profiles (store (exec r later)) !! pid).
Proof.
  revert r. induction later as [|ev later IH]; intros r HI Hc; [done|].
  rewrite exec_cons. apply IH; [by apply Inv_step|by apply own_step].
Qed.

Lemma unrequested_exec later r pid :
  Inv r →
  is_Some (baseSelectors.getProfiles (store r) pid) →
  pid ∉ requestedProfiles (calls r) →
  pid ∉ requestedProfiles (calls (exec r later)).
Proof.
  revert r. induction later as [|ev later IH]; intros r HI Hc Hn; [done|].
  rewrite exec_cons. apply IH; [by apply Inv_step|by apply cached_step|].
  intros Hin. destruct (requested_step r ev pid HI Hn Hin) as [_ Hnone].
  rewrite Hnone in Hc. by destruct Hc.
Qed.

(** X1: [createProfile] and the [argsToParams] of its fetch store validate
    alike, the property ID first: the action throws exactly the error
    [argsToParams] throws for the same arguments, before anything is
    dispatched, and when [argsToParams] accepts them the action waits for the
    request built from exactly these parameters. *)
Theorem createProfile_validates_like_argsToParams
  (propertyID profileName : string) (state : State) :
  fetchCreateProfileStore.argsToParams propertyID profileName =
    (if isValidPropertyID propertyID then
       if isValidProfileName profileName then Value (propertyID, profileName)
       else Throws "a valid name is required to create a profile."
     else Throws "a valid property ID is required to create a profile.") ∧
  match fetchCreateProfileStore.argsToParams propertyID profileName with
  | Throws msg =>
      run (baseActions.createProfile propertyID profileName) state
        = (state, Raise msg)
  | Value params =>
      awaited (run (baseActions.createProfile propertyID profileName) state).2
        = Some (fetchCreateProfileStore.controlCallback params)
  end.
Proof.
  unfold fetchCreateProfileStore.argsToParams, invariant.
  destruct (isValidPropertyID propertyID) eqn:Hv;
    [destruct (isValidProfileName profileName) eqn:Hn|]; cbn; split; try done.
  - destruct (run_createProfile_valid propertyID profileName state)
      as (k & -> & _); done.
  - by apply run_createProfile_invalidName.
  - by apply run_createProfile_invalidID.
Qed.

(** X2: the [getProfiles] resolver never throws, whatever the property ID,
    the state and the answer of the network: it returns at once, or waits
    for the profiles request of its property ID (whose parameters
    [argsToParams] accepts) and returns once that is answered. *)
Theorem resolver_never_throws (propertyID : string) (state : State) :
  match (run (baseResolvers.getProfiles propertyID) state).2 with
  | Return _ => True
  | Await_get req k =>
      req = fetchGetProfilesStore.controlCallback propertyID ∧
      fetchGetProfilesStore.argsToParams propertyID = Value propertyID ∧
      ∀ o later, (run (k o) later).2 = Return ()
  | _ => False
  end.
Proof.
  destruct (isValidPropertyID propertyID) eqn:Hv.
  - destruct (baseSelectors.getProfiles state propertyID) as [l|] eqn:Hc.
    + by rewrite (run_getProfiles_cached _ _ l).
    + destruct (run_getProfiles_fetch propertyID state) as (k & -> & Hk); [done..|].
      cbn. split_and!; [done| |].
      * unfold fetchGetProfilesStore.argsToParams, invariant. by rewrite Hv.
      * intros o later. by rewrite Hk.
  - by rewrite run_getProfiles_invalid.
Qed.

(** X3: the first read of a valid property ID with nothing cached yields
    [undefined] and sends exactly one request, the profiles request of that
    property ID with the account ID parsed from it; the key is then flagged
    as fetching. *)
Theorem first_read_fetches (trace : list Event) (propertyID : string) :
  Read propertyID ∉ trace →
  isValidPropertyID propertyID = true →
  let r := exec createRegistry trace in
  baseSelectors.getProfiles (store r) propertyID = None →
  let r' := (step r (Read propertyID)).1 in
  (step r (Read propertyID)).2 = Selected None ∧
  calls r' = calls r ++ [API_get_profiles (parsePropertyID propertyID) propertyID] ∧
  awaitsProfiles r' (length (inflight r)) propertyID ∧
  isFetchingGetProfiles (store r') !! propertyID = Some true.
Proof.
  intros Hrd Hv r Hc r'.
  assert (propertyID ∉ resolution r) as Hres.
  { intros Hin.
    destruct (resolution_exec trace createRegistry propertyID Inv_createRegistry Hin)
      as [Hin'|Hin']; [by apply not_elem_of_empty in Hin'|done]. }
  subst r'. cbn [step]. rewrite decide_False by done.
  destruct (run_getProfiles_fetch propertyID (store r)) as (k & -> & Hk); [done..|].
  rewrite Hc. cbn. split_and!; [done..| |].
  - unfold awaitsProfiles. cbn. by rewrite list_lookup_middle.
  - apply lookup_insert_eq.
Qed.

(** X4: the cache only grows: once the selector returns a value for a
    property ID, it returns one for it after every further event, and a
    list if it was a list. *)
Theorem cached_stays_cached (trace later : list Event) (propertyID : string) :
  is_Some (baseSelectors.getProfiles (store (exec createRegistry trace)) propertyID) →
  is_Some (baseSelectors.getProfiles
             (store (exec createRegistry (trace ++ later))) propertyID) ∧
  (∀ l,
     baseSelectors.getProfiles (store (exec createRegistry trace)) propertyID
       = Some (Array l) →
     ∃ l',
       baseSelectors.getProfiles
         (store (exec createRegistry (trace ++ later))) propertyID
       = Some (Array l')).
Proof.
  intros Hc. rewrite exec_app.
  assert (Inv (exec createRegistry trace)) as HI by apply Inv_exec, Inv_createRegistry.
  split; [by apply cached_exec|].
  intros l Hl%index_Array.
  destruct (own_exec later (exec createRegistry trace) propertyID HI) as [l' Hl'];
    [by rewrite Hl|].
  exists l'. by apply index_Array.
Qed.

(** X5: a property ID that holds a list before any profiles request was
    sent for it (a profile was created under it before it was read) never
    has its profiles requested afterwards: the resolver only fetches on
    [undefined]. *)
Theorem cached_before_request_never_fetched (trace later : list Event)
  (propertyID : string) :
  let r := exec createRegistry trace in
  is_Some (baseSelectors.getProfiles (store r) propertyID) →
  propertyID ∉ requestedProfiles (calls r) →
  propertyID ∉ requestedProfiles (calls (exec createRegistry (trace ++ later))).
Proof.
  intros r Hc Hn. rewrite exec_app. apply unrequested_exec; [|done..].
  apply Inv_exec, Inv_createRegistry.
Qed.

Lemma createAll_cons propertyID c created state :
  createAll propertyID (c :: created) state =
    state' ← fetchCreateProfileStore.reducerCallback state c.1 (propertyID, c.2);
    createAll propertyID created state'.
Proof.
  unfold createAll. cbn [foldl mbind Thrown_mbind].
  destruct (fetchCreateProfileStore.reducerCallback state c.1 (propertyID, c.2))
    as [state'|msg]; [done|].
  induction created as [|c' created IH]; [done|]. apply IH.
Qed.

Lemma createAll_own propertyID created state :
  (∀ key, baseSelectors.getProfiles state propertyID ≠ Some (Member key)) →
  ∃ state',
    createAll propertyID created state = Value state' ∧
    profiles state' =
      match created with
      | [] => profiles state
      | _ :: _ =>
          <[propertyID := cachedList state propertyID ++ created.*1]> (profiles state)
      end.
Proof.
  revert state. induction created as [|[profile pname] created IH]; intros state Hown.
  - by exists state.
  - rewrite createAll_cons. cbn [fst snd].
    unfold fetchCreateProfileStore.reducerCallback, cachedList.
    unfold baseSelectors.getProfiles in *.
    destruct (index (profiles state) propertyID) as [[l|key]|] eqn:Hfound;
      [|by destruct (Hown key)|]; cbn [mbind Thrown_mbind].
    + destruct (IH (set_profiles (λ old, <[propertyID := l ++ [profile]]> old) state))
        as (state' & -> & Hp).
      { intros key. cbn. by rewrite index_insert_eq. }
      exists state'. split; [done|]. rewrite Hp. unfold cachedList.
      unfold baseSelectors.getProfiles. cbn. rewrite index_insert_eq.
      destruct created; [done|]. cbn. by rewrite insert_insert_eq, <- app_assoc.
    + destruct (IH (set_profiles (λ old, <[propertyID := [] ++ [profile]]> old) state))
        as (state' & -> & Hp).
      { intros key. cbn. by rewrite index_insert_eq. }
      exists state'. split; [done|]. rewrite Hp. unfold cachedList.
      unfold baseSelectors.getProfiles. cbn. rewrite index_insert_eq.
      destruct created; [done|]. cbn. by rewrite insert_insert_eq.
Qed.

(** X6: profiles created one after the other under a property ID pile up
    in creation order behind what was cached (behind nothing, when nothing
    was), and no other property ID is affected; under the name of a member
    inherited from [Object.prototype] that is not an own property, the
    first creation throws a [TypeError]. *)
Theorem created_profiles_accumulate (propertyID : string)
  (created : list (Profile * string)) (state : State) :
  match baseSelectors.getProfiles state propertyID with
  | Some (Member _) =>
      createAll propertyID created state =
        match created with
        | [] => Value state
        | _ :: _ => Throws "TypeError"
        end
  | _ =>
      ∃ state',
        createAll propertyID created state = Value state' ∧
        cachedList state' propertyID = cachedList state propertyID ++ created.*1 ∧
        (created ≠ [] →
         baseSelectors.getProfiles state' propertyID
         = Some (Array (cachedList state propertyID ++ created.*1))) ∧
        (∀ other, other ≠ propertyID →
           baseSelectors.getProfiles state' other
           = baseSelectors.getProfiles state other)
  end.
Proof.
  assert ((∀ key, baseSelectors.getProfiles state propertyID ≠ Some (Member key)) →
          ∃ state',
            createAll propertyID created state = Value state' ∧
            cachedList state' propertyID = cachedList state propertyID ++ created.*1 ∧
            (created ≠ [] →
             baseSelectors.getProfiles state' propertyID
             = Some (Array (cachedList state propertyID ++ created.*1))) ∧
            (∀ other, other ≠ propertyID →
               baseSelectors.getProfiles state' other
               = baseSelectors.getProfiles state other)) as Hown.
  { intros Hown. destruct (createAll_own propertyID created state Hown)
      as (state' & Hall & Hp).
    exists state'. split; [done|].
    unfold cachedList at 1. unfold baseSelectors.getProfiles at 1 2 3. rewrite Hp.
    destruct created as [|c created].
    - cbn [fmap list_fmap]. rewrite app_nil_r. by split_and!.
    - rewrite index_insert_eq. split_and!; [done..|].
      intros other Hne. by apply index_insert_ne. }
  destruct (baseSelectors.getProfiles state propertyID) as [[l|key]|] eqn:Hfound;
    [by apply Hown| |by apply Hown].
  destruct created as [|[profile pname] created]; [done|].
  rewrite createAll_cons. cbn [fst snd].
  unfold fetchCreateProfileStore.reducerCallback.
  unfold baseSelectors.getProfiles in Hfound. by rewrite Hfound.
Qed.

(** X7: a received profiles list replaces what is cached under its property
    ID, created profiles included, while a profile created after it is
    appended to it; receiving twice leaves the state of the last
    reception.  (The create callback returns a state for every property ID
    that is not the name of a member inherited from [Object.prototype].) *)
Theorem received_list_replaces (state : State) (propertyID profileName : string)
  (received earlier : list Profile) (profile : Profile) :
  (∀ created,
     fetchCreateProfileStore.reducerCallback state profile (propertyID, profileName)
       = Value created →
     baseSelectors.getProfiles
       (fetchGetProfilesStore.reducerCallback created received propertyID) propertyID
     = Some (Array received)) ∧
  (inherited propertyID = false →
   ∃ created,
     fetchCreateProfileStore.reducerCallback state profile (propertyID, profileName)
       = Value created) ∧
  (∃ state',
     fetchCreateProfileStore.reducerCallback
       (fetchGetProfilesStore.reducerCallback state received propertyID)
       profile (propertyID, profileName) = Value state' ∧
     baseSelectors.getProfiles state' propertyID = Some (Array (received ++ [profile]))) ∧
  fetchGetProfilesStore.reducerCallback
    (fetchGetProfilesStore.reducerCallback state earlier propertyID)
    received propertyID
    = fetchGetProfilesStore.reducerCallback state received propertyID.
Proof.
  split_and!.
  - intros created _. apply index_insert_eq.
  - intros Hown. unfold fetchCreateProfileStore.reducerCallback, index.
    rewrite Hown. destruct (profiles state !! propertyID); eauto.
  - unfold fetchCreateProfileStore.reducerCallback,
      fetchGetProfilesStore.reducerCallback.
    cbn [profiles set_profiles]. rewrite index_insert_eq.
    eexists. split; [done|]. apply index_insert_eq.
  - unfold fetchGetProfilesStore.reducerCallback, set_profiles. cbn.
    by rewrite insert_insert_eq.
Qed.

(** X8: the two reducer callbacks work on the list of their own property
    ID only: applied for different property IDs they commute, in whichever
    combination, in the state they return and in the [TypeError] the create
    callback throws. *)
Theorem callbacks_of_different_keys_commute (state : State)
  (propertyID other nameA nameB : string) (listA listB : list Profile)
  (profileA profileB : Profile) :
  propertyID ≠ other →
  fetchGetProfilesStore.reducerCallback
    (fetchGetProfilesStore.reducerCallback state listA propertyID) listB other
  = fetchGetProfilesStore.reducerCallback
      (fetchGetProfilesStore.reducerCallback state listB other) listA propertyID ∧
  fetchCreateProfileStore.reducerCallback
    (fetchGetProfilesStore.reducerCallback state listA propertyID)
    profileB (other, nameB)
  = (state' ← fetchCreateProfileStore.reducerCallback state profileB (other, nameB);
     Value (fetchGetProfilesStore.reducerCallback state' listA propertyID)) ∧
  (state' ← fetchCreateProfileStore.reducerCallback state profileA (propertyID, nameA);
   fetchCreateProfileStore.reducerCallback state' profileB (other, nameB))
  = (state' ← fetchCreateProfileStore.reducerCallback state profileB (other, nameB);
     fetchCreateProfileStore.reducerCallback state' profileA (propertyID, nameA)).
Proof.
  intros Hne.
  unfold fetchGetProfilesStore.reducerCallback,
    fetchCreateProfileStore.reducerCallback.
  split_and!.
  - unfold set_profiles. cbn. f_equal. by apply insert_insert_ne.
  - cbn [profiles set_profiles]. rewrite index_insert_ne by done.
    destruct (index (profiles state) other) as [[l|key]|]; [|done|];
      unfold set_profiles; cbn; do 2 f_equal; by apply insert_insert_ne.
  - destruct (index (profiles state) propertyID) as [[l|key]|] eqn:HA;
      destruct (index (profiles state) other) as [[l'|key']|] eqn:HB;
      cbn [mbind Thrown_mbind profiles set_profiles];
      rewrite ?index_insert_ne, ?HA, ?HB by done; try done.
    all: unfold set_profiles; cbn; do 2 f_equal; by apply insert_insert_ne.
Qed.

(** X9: when the [getProfiles] resolver finds a list cached for a valid
    property ID, it returns without waiting, leaves the cache as it is and
    leaves a profile ID selected; run again, it changes nothing. *)
Theorem resolver_on_cached_list (propertyID : string) (state : State)
  (l : list Profile) :
  isValidPropertyID propertyID = true →
  baseSelectors.getProfiles state propertyID = Some (Array l) →
  ∃ state',
    run (baseResolvers.getProfiles propertyID) state = (state', Return ()) ∧
    profiles state' = profiles state ∧
    is_Some (getProfileID state') ∧
    run (baseResolvers.getProfiles propertyID) state' = (state', Return ()).
Proof.
  intros Hv Hc. exists (selectProfile_state l state).
  split_and!.
  - by apply (run_getProfiles_cached _ _ (Array l)).
  - apply profiles_selectProfile_state.
  - unfold getProfileID. rewrite profileID_selectProfile_state.
    unfold getProfileID, truthy.
    destruct (profileID state) as [s|]; [destruct (negb _)|]; eauto.
  - rewrite (run_getProfiles_cached _ _ (Array l));
      [|done|by unfold baseSelectors.getProfiles; rewrite profiles_selectProfile_state].
    f_equal. unfold selectProfile_state at 1.
    destruct (truthy (getProfileID (selectProfile_state l state))) eqn:Ht; [done|].
    unfold selectProfile_state in *.
    destruct (truthy (getProfileID state)) eqn:Ht'; [by rewrite Ht' in Ht|done].
Qed.

(** X10: when the profiles request of the resolver fails, the resolver
    selects no profile and caches nothing: the profile ID and the cached
    lists stay as they were when the answer arrived. *)
Theorem resolver_failure_selects_nothing (propertyID : string) (state : State) :
  isValidPropertyID propertyID = true →
  baseSelectors.getProfiles state propertyID = None →
  ∃ k,
    (run (baseResolvers.getProfiles propertyID) state).2
      = Await_get (fetchGetProfilesStore.controlCallback propertyID) k ∧
    ∀ e later,
      getProfileID (run (k (Rejected e)) later).1 = getProfileID later ∧
      profiles (run (k (Rejected e)) later).1 = profiles later.
Proof.
  intros Hv Hc.
  destruct (run_getProfiles_fetch propertyID state) as (k & Hrun & Hk); [done..|].
  exists k. rewrite Hrun. split; [done|]. intros e later. by rewrite Hk.
Qed.

(** X11: when a [createProfile] call succeeds, the action returns the
    created profile as [response], with no [error], and that profile is the
    last one of the list then cached under its property ID (a property ID
    that is not the name of a member inherited from [Object.prototype]). *)
Theorem createProfile_returns_cached_profile (trace : list Event) (slot : nat)
  (propertyID profileName : string) (profile : Profile) :
  let r := exec createRegistry trace in
  awaitsCreate r slot (propertyID, profileName) →
  (step r (Respond_set slot (Resolved profile))).2
    = Returned {| response := Some profile; error := None |} ∧
  (inherited propertyID = false →
   last (cachedList (store (step r (Respond_set slot (Resolved profile))).1)
           propertyID)
     = Some profile).
Proof.
  intros r Ha.
  assert (Inv r) as HI by apply Inv_exec, Inv_createRegistry.
  rewrite (step_Respond_set _ _ _ (propertyID, profileName)) by done.
  split; [done|]. intros Hown.
  unfold cachedList, baseSelectors.getProfiles. cbn [fst store].
  rewrite profiles_createProfile_settle. cbn [fst].
  rewrite appended_own by done. rewrite index_insert_eq. apply last_snoc.
Qed.

(** X12: a [createProfile] call with a valid property ID and a valid name
    sends exactly one request, the create-profile request with the account
    ID parsed from the property ID, the property ID and the name; it
    returns nothing yet, joins the generators in flight, and
    [isDoingCreateProfile] is true right after. *)
Theorem createProfile_sends_request (r : Registry)
  (propertyID profileName : string) :
  isValidPropertyID propertyID = true →
  isValidProfileName profileName = true →
  let r' := (step r (Create propertyID profileName)).1 in
  (step r (Create propertyID profileName)).2 = Nothing ∧
  calls r' = calls r ++
    [API_set_create_profile (parsePropertyID propertyID) propertyID profileName] ∧
  inflight r' !! length (inflight r) ≠ None ∧
  length (inflight r') = S (length (inflight r)) ∧
  baseSelectors.isDoingCreateProfile (store r') = true.
Proof.
  intros Hv Hn r'. subst r'. cbn [step].
  destruct (run_createProfile_valid propertyID profileName (store r))
    as (k & -> & _); [done..|].
  cbn. split_and!; [done..| | |].
  - by rewrite list_lookup_middle.
  - rewrite length_app. cbn. lia.
  - apply isDoingCreateProfile_true. exists (propertyID, profileName).
    apply lookup_insert_eq.
Qed.

End MoreProfiles.

(** ** Properties of the Optimize set-up filter *)

Section Optimize.
Variable __ : string → string → string.

Lemma js_assign_nil key v o : js_assign [] key v o = js_set o key v.
Proof. done. Qed.

Lemma js_assign_learnMore (fields learnMore : gmap string JSValue) key v :
  fields !! "learnMore" = Some (JSObject learnMore) →
  js_assign ["learnMore"] key v (JSObject fields)
  = Value (JSObject (<["learnMore" := JSObject (<[key := v]> learnMore)]> fields)).
Proof. intros Hl. cbn. by rewrite Hl. Qed.

Lemma js_assign_not_object (fields : gmap string JSValue) key v :
  (∀ learnMore, fields !! "learnMore" ≠ Some (JSObject learnMore)) →
  js_assign ["learnMore"] key v (JSObject fields) = Throws "TypeError".
Proof.
  intros Hl. cbn. destruct (fields !! "learnMore") as [[]|] eqn:Hf; try done.
  by destruct (Hl fields0).
Qed.

(** X13: given a [winData] object whose [learnMore] is an object, the
    Optimize filter returns it with [description], [learnMore.label] and
    [learnMore.url] overwritten and every other property, of [winData] and
    of [learnMore], as it was; applied to its own result it changes
    nothing. *)
Theorem setupWinNotification_overwrites (fields learnMore : gmap string JSValue) :
  fields !! "learnMore" = Some (JSObject learnMore) →
  let description :=
    JSString (__ "To set up experiments and see the results, go to "
                 "google-site-kit") in
  let learnMore' :=
    <["url" := JSString "https://optimize.withgoogle.com/"]>
      (<["label" := JSString "Optimize"]> learnMore) in
  let winData' :=
    JSObject (<["learnMore" := JSObject learnMore']>
                (<["description" := description]> fields)) in
  optimize.setupWinNotification __ (JSObject fields) = (winData', Value ()) ∧
  optimize.setupWinNotification __ winData' = (winData', Value ()) ∧
  (∀ key, key ≠ "description" → key ≠ "learnMore" →
     js_get winData' key = js_get (JSObject fields) key) ∧
  (∀ key, key ≠ "label" → key ≠ "url" → learnMore' !! key = learnMore !! key).
Proof.
  intros Hl description learnMore' winData'.
  assert (∀ (f lm : gmap string JSValue),
            f !! "learnMore" = Some (JSObject lm) →
            optimize.setupWinNotification __ (JSObject f)
            = (JSObject
                 (<["learnMore" :=
                      JSObject (<["url" := JSString "https://optimize.withgoogle.com/"]>
                                  (<["label" := JSString "Optimize"]> lm))]>
                    (<["description" := description]> f)), Value ())) as Hrun.
  { intros f lm Hf.
    unfold optimize.setupWinNotification, andThen, assign.
    rewrite js_assign_nil. cbn [js_set].
    rewrite (js_assign_learnMore (<["description" := description]> f) lm)
      by by rewrite lookup_insert_ne.
    rewrite (js_assign_learnMore _ (<["label" := JSString "Optimize"]> lm))
      by by rewrite lookup_insert_eq.
    by rewrite insert_insert_eq. }
  split_and!.
  - by apply Hrun.
  - subst winData'. rewrite (Hrun _ learnMore') by by rewrite lookup_insert_eq.
    do 2 f_equal. apply map_eq. intros key.
    destruct (decide (key = "learnMore")) as [->|Hk1].
    + rewrite !lookup_insert_eq. do 2 f_equal. apply map_eq. intros key'.
      subst learnMore'.
      destruct (decide (key' = "url")) as [->|Hu]; [by rewrite !lookup_insert_eq|].
      destruct (decide (key' = "label")) as [->|Hb].
      * rewrite !(lookup_insert_ne _ "url") by done. by rewrite !lookup_insert_eq.
      * by repeat (rewrite lookup_insert_ne by done).
    + rewrite !(lookup_insert_ne _ "learnMore") by done.
      destruct (decide (key = "description")) as [->|Hk2];
        [by rewrite !lookup_insert_eq|].
      by repeat (rewrite lookup_insert_ne by done).
  - intros key Hk1 Hk2. cbn. by rewrite !lookup_insert_ne.
  - intros key Hk1 Hk2. subst learnMore'. by rewrite !lookup_insert_ne.
Qed.

(** X14: given a [winData] object whose [learnMore] is not an object
    (absent, [undefined], [null] or a primitive), the Optimize filter throws
    a [TypeError] after it has overwritten [description]: the object is
    left with the new description and otherwise as it was.  Given anything
    but an object it throws and leaves it untouched. *)
Theorem setupWinNotification_throws_half_done (fields : gmap string JSValue)
  (other : JSValue) :
  (∀ learnMore, fields !! "learnMore" ≠ Some (JSObject learnMore)) →
  optimize.setupWinNotification __ (JSObject fields)
  = (JSObject
       (<["description" :=
            JSString (__ "To set up experiments and see the results, go to "
                         "google-site-kit")]> fields),
     Throws "TypeError") ∧
  match other with
  | JSObject _ => True
  | _ => optimize.setupWinNotification __ other = (other, Throws "TypeError")
  end.
Proof.
  intros Hl. split; [|by destruct other].
  unfold optimize.setupWinNotification, andThen, assign.
  rewrite js_assign_nil. cbn [js_set].
  rewrite js_assign_not_object; [done|].
  intros lm. rewrite lookup_insert_ne by done. apply Hl.
Qed.

(** X15: the module adds its filter exactly when the [optimize] entry of
    the modules data is active: one filter, on the hook
    [googlesitekit.SetupWinNotification-optimize], when [active] is truthy,
    none when it is falsy or absent; when the modules data has no
    [optimize] entry the module throws a [TypeError]. *)
Theorem optimize_init_adds_filter_when_active (modules : gmap string JSValue) :
  match modules !! "optimize" with
  | None | Some JSUndefined | Some JSNull =>
      optimize.init __ (JSObject modules) = Throws "TypeError"
  | Some module =>
      ∃ active,
        js_get module "active" = Value active ∧
        optimize.init __ (JSObject modules) =
          Value (if js_truthy active then
                   [ {| optimize.hookName := "googlesitekit.SetupWinNotification-optimize";
                        optimize.namespace := "googlesitekit.OptimizeSetupWinNotification";
                        optimize.callback := optimize.setupWinNotification __ |} ]
                 else [])
  end.
Proof.
  unfold optimize.init. cbn [js_get].
  destruct (modules !! "optimize") as [[]|]; cbn; try done.
  - by exists JSUndefined.
  - by exists JSUndefined.
  - by exists JSUndefined.
  - eexists. split; [done|]. by destruct (js_truthy _).
Qed.

End Optimize.

(** ** Properties of the AdSense settings filter *)

(** X16: the [googlekit.SettingsConfirmed] filter of the AdSense settings
    calls [submitChanges] once for the module ['adsense-module'] and never
    for anything else, whose chain it passes on; for ['adsense-module'] its
    promise is rejected exactly when [submitChanges] rejects or resolves to
    a value with a truthy [error], with that reason, and is fulfilled with
    [undefined] otherwise, also when [submitChanges] resolves to nothing. *)
Theorem settingsConfirmed_submits_adsense_only
  (submitChanges : adsenseSettingsEdit.Settled) (chain module : JSValue) :
  let '(submitted, confirmation) :=
    adsenseSettingsEdit.settingsConfirmed submitChanges chain module in
  if adsenseSettingsEdit.isAdSenseModule module then
    submitted = 1 ∧
    (∀ reason,
       confirmation = adsenseSettingsEdit.Settles (adsenseSettingsEdit.RejectedWith reason) ↔
       submitChanges = adsenseSettingsEdit.RejectedWith reason ∨
       ∃ value, submitChanges = adsenseSettingsEdit.Fulfilled value ∧
                js_truthy value = true ∧
                js_get value "error" = Value reason ∧
                js_truthy reason = true) ∧
    (confirmation = adsenseSettingsEdit.Settles (adsenseSettingsEdit.Fulfilled JSUndefined) ∨
     ∃ reason,
       confirmation = adsenseSettingsEdit.Settles (adsenseSettingsEdit.RejectedWith reason))
  else
    submitted = 0 ∧ confirmation = adsenseSettingsEdit.Follows chain.
Proof.
  unfold adsenseSettingsEdit.settingsConfirmed.
  destruct (adsenseSettingsEdit.isAdSenseModule module); [|done].
  destruct submitChanges as [value|reason'].
  - destruct value as [| |b|n|str|fields]; cbn [js_truthy js_get].
    all: try destruct b; try destruct (negb _) eqn:Hneg; cbn; rewrite ?lookup_empty; cbn.
    all: try destruct (js_truthy (default JSUndefined (fields !! "error"))) eqn:He.
    all: split_and!; [done| |by eauto].
    all: intros reason; split;
      [intros Heq; simplify_eq
      |intros [Heq|(v & Heq & Ht & Hg & Hr)]; simplify_eq/=; try done; try congruence].
    right. by exists (JSObject fields).
  - split_and!; [done| |by eauto].
    intros reason. split; [by intros [= ->]; left|].
    intros [[= ->]|(v & ? & _)]; done.
Qed.

(** ** Concrete runs *)

Section Runs.
Local Existing Instance sampleUtil.

(** C1, as the claim states it, fails: a property ID that was never read
    holds a profiles list once a [createProfile] call under it has
    succeeded; and for the name of a member inherited from
    [Object.prototype] the selector returns that member, in the initial
    state already. *)
Lemma unread_key_with_created_profile :
  let trace := [Create "UA-12345-1" "Test"; Respond_set 0 (Resolved sampleProfile)] in
  (Read "UA-12345-1" ∉ trace) ∧
  baseSelectors.getProfiles (store (exec createRegistry trace)) "UA-12345-1"
    = Some (Array [sampleProfile]) ∧
  baseSelectors.getProfiles BASE_INITIAL_STATE "constructor"
    = Some (Member "constructor").
Proof.
  split; [|by vm_compute].
  intros Hin. repeat (apply elem_of_cons in Hin as [?|Hin]; [done|]).
  by apply elem_of_nil in Hin.
Qed.

(** C2, as the claim states it, fails for read accesses: the resolver of a
    read with an invalid property ID returns without raising anything (and
    without fetching). *)
Lemma invalid_read_raises_nothing :
  isValidPropertyID "not-a-property-id" = false ∧
  run (baseResolvers.getProfiles "not-a-property-id") BASE_INITIAL_STATE
    = (BASE_INITIAL_STATE, Return ()) ∧
  (step createRegistry (Read "not-a-property-id")).2 = Selected None ∧
  calls (step createRegistry (Read "not-a-property-id")).1 = [].
Proof. by vm_compute. Qed.

(** [getProfiles_untouched_undefined] at a concrete run. *)
Lemma getProfiles_untouched_undefined_witness :
  let trace := [Read "UA-1-1"; Create "UA-2-1" "Test";
                Respond_set 1 (Resolved sampleProfile);
                Respond_get 0 (Resolved [sampleProfile])] in
  let r := exec createRegistry trace in
  inherited "UA-3-1" = false ∧
  baseSelectors.getProfiles (store r) "UA-3-1" = None ∧
  ("UA-3-1" ∉ requestedProfiles (calls r)).
Proof.
  split; [reflexivity|].
  destruct (@getProfiles_untouched_undefined sampleUtil
              [Read "UA-1-1"; Create "UA-2-1" "Test";
               Respond_set 1 (Resolved sampleProfile);
               Respond_get 0 (Resolved [sampleProfile])] "UA-3-1")
    as (Hnone & Hcalls & _); [reflexivity| | |by split].
  - intros Hin. repeat (apply elem_of_cons in Hin as [?|Hin]; [done|]).
    by apply elem_of_nil in Hin.
  - vm_compute. intros Hin.
    repeat (apply elem_of_cons in Hin as [?|Hin]; [done|]).
    by apply elem_of_nil in Hin.
Defined.

(** [invalid_parameters_send_nothing] at a concrete run. *)
Lemma invalid_parameters_send_nothing_witness :
  (∃ msg, step createRegistry (Create "UA-12345-1" "")
          = (createRegistry, Threw msg)) ∧
  (∃ msg, step createRegistry (Create "12345" "Test")
          = (createRegistry, Threw msg)) ∧
  calls (step createRegistry (Read "12345")).1 = [].
Proof.
  split_and!.
  - destruct (proj1 (@invalid_parameters_send_nothing sampleUtil
                       createRegistry "UA-12345-1" "")) as (msg & _ & Hs);
      [reflexivity|]. by exists msg.
  - destruct (proj1 (@invalid_parameters_send_nothing sampleUtil
                       createRegistry "12345" "Test")) as (msg & _ & Hs);
      [reflexivity|]. by exists msg.
  - apply (proj2 (@invalid_parameters_send_nothing sampleUtil
                    createRegistry "12345" "")). reflexivity.
Defined.

(** [fetch_success_caches_response] at a concrete run. *)
Lemma fetch_success_caches_response_witness :
  let r := exec createRegistry [Read "UA-12345-1"] in
  awaitsProfiles r 0 "UA-12345-1" ∧
  baseSelectors.getProfiles
    (store (step r (Respond_get 0 (Resolved [sampleProfile]))).1)
    "UA-12345-1" = Some (Array [sampleProfile]).
Proof.
  split; [reflexivity|].
  apply (@fetch_success_caches_response sampleUtil
           [Read "UA-12345-1"] 0 "UA-12345-1" [sampleProfile]).
  reflexivity.
Defined.

(** [fetch_failure_keeps_undefined] at a concrete run. *)
Lemma fetch_failure_keeps_undefined_witness :
  let r := exec createRegistry [Read "UA-12345-1"] in
  let r' := (step r (Respond_get 0 (Rejected sampleError))).1 in
  awaitsProfiles r 0 "UA-12345-1" ∧
  baseSelectors.getProfiles (store r) "UA-12345-1" = None ∧
  baseSelectors.getProfiles (store r') "UA-12345-1" = None ∧
  getError (store r') = Some sampleError ∧
  profilesRequests r' "UA-12345-1" = 1.
Proof.
  split; [reflexivity|]. split; [reflexivity|].
  apply (@fetch_failure_keeps_undefined sampleUtil
           [Read "UA-12345-1"] 0 "UA-12345-1" sampleError); reflexivity.
Defined.

(** [createProfile_success_appends] at a concrete run. *)
Lemma createProfile_success_appends_witness :
  let r := exec createRegistry [Create "UA-12345-1" "Test"] in
  let r' := (step r (Respond_set 0 (Resolved sampleProfile))).1 in
  awaitsCreate r 0 ("UA-12345-1", "Test") ∧
  inherited "UA-12345-1" = false ∧
  cachedList (store r) "UA-12345-1" = [] ∧
  baseSelectors.getProfiles (store r') "UA-12345-1"
    = Some (Array (cachedList (store r) "UA-12345-1" ++ [sampleProfile])).
Proof.
  split; [reflexivity|]. split; [reflexivity|]. split; [reflexivity|].
  apply (@createProfile_success_appends sampleUtil
           [Create "UA-12345-1" "Test"] 0 "UA-12345-1" "Test" sampleProfile);
    reflexivity.
Defined.

(** [createProfile_failure_keeps_cache] at a concrete run. *)
Lemma createProfile_failure_keeps_cache_witness :
  let r := exec createRegistry [Read "UA-12345-1"] in
  let r1 := (step r (Create "UA-12345-1" "Test")).1 in
  isValidPropertyID "UA-12345-1" = true ∧
  isValidProfileName "Test" = true ∧
  awaitsCreate r1 1 ("UA-12345-1", "Test") ∧
  (step r1 (Respond_set 1 (Rejected sampleError))).2
    = Returned {| response := None; error := Some sampleError |} ∧
  profiles (store (step r1 (Respond_set 1 (Rejected sampleError))).1)
    = profiles (store r1).
Proof.
  split; [reflexivity|]. split; [reflexivity|]. split; [reflexivity|].
  destruct (@createProfile_failure_keeps_cache sampleUtil
              [Read "UA-12345-1"] "UA-12345-1" "Test" sampleError)
    as (_ & _ & Hfail); [reflexivity..|].
  apply (Hfail [] 1). reflexivity.
Defined.

(** [reads_fetch_at_most_once] at a concrete run. *)
Lemma reads_fetch_at_most_once_witness :
  let r := exec createRegistry [Read "UA-12345-1"] in
  isFetchingGetProfiles (store r) !! "UA-12345-1" = Some true ∧
  calls (step r (Read "UA-12345-1")).1 = calls r.
Proof.
  split; [reflexivity|].
  apply (proj1 (reads_fetch_at_most_once [Read "UA-12345-1"] "UA-12345-1")).
  right. reflexivity.
Defined.



(** [resolver_selects_first_profile] at a concrete run. *)
Lemma resolver_selects_first_profile_witness :
  let state :=
    fetchGetProfilesStore.reducerCallback BASE_INITIAL_STATE [sampleProfile]
      "UA-12345-1" in
  isValidPropertyID "UA-12345-1" = true ∧
  ∃ state',
    run (baseResolvers.getProfiles "UA-12345-1") state = (state', Return ()) ∧
    getProfileID state' = Some "123456789".
Proof.
  split; [reflexivity|].
  destruct (@resolver_selects_first_profile sampleUtil "UA-12345-1"
              (fetchGetProfilesStore.reducerCallback BASE_INITIAL_STATE
                 [sampleProfile] "UA-12345-1")) as [Hcached _]; [reflexivity|].
  apply (Hcached [sampleProfile]). reflexivity.
Defined.



(** The two scenarios of the spec: a first read yields [undefined]; after a
    200 answer the list is returned and one request was sent however often
    the key is read; after a 500 answer the value stays [undefined], the
    error selector returns the payload and one request was sent. *)
Example scenario_first_read :
  (step createRegistry (Read "UA-12345-1")).2 = Selected None.
Proof. reflexivity. Qed.

Example scenario_200 :
  let r := exec createRegistry
             [Read "UA-12345-1"; Read "UA-12345-1";
              Respond_get 0 (Resolved [sampleProfile]); Read "UA-12345-1"] in
  (step r (Read "UA-12345-1")).2 = Selected (Some (Array [sampleProfile])) ∧
  calls r = [API_get_profiles "12345" "UA-12345-1"] ∧
  getProfileID (store r) = Some "123456789".
Proof. by vm_compute. Qed.

Example scenario_500 :
  let r := exec createRegistry
             [Read "UA-12345-1"; Respond_get 0 (Rejected sampleError);
              Read "UA-12345-1"] in
  (step r (Read "UA-12345-1")).2 = Selected None ∧
  getError (store r) = Some sampleError ∧
  calls r = [API_get_profiles "12345" "UA-12345-1"].
Proof. by vm_compute. Qed.

End Runs.

(** ** Concrete runs of the further properties *)

Section MoreRuns.
Local Existing Instance sampleUtil.

(** [first_read_fetches] at a concrete run. *)
Lemma first_read_fetches_witness :
  (Read "UA-12345-1" ∉ []) ∧
  isValidPropertyID "UA-12345-1" = true ∧
  baseSelectors.getProfiles (store (exec createRegistry [])) "UA-12345-1" = None ∧
  calls (step (exec createRegistry []) (Read "UA-12345-1")).1
    = calls (exec createRegistry []) ++ [API_get_profiles "12345" "UA-12345-1"].
Proof.
  split; [by intros ?%elem_of_nil|]. split; [reflexivity|]. split; [reflexivity|].
  destruct (@first_read_fetches sampleUtil [] "UA-12345-1")
    as (_ & Hcalls & _); [by intros ?%elem_of_nil|reflexivity..|].
  exact Hcalls.
Defined.

(** [cached_stays_cached] at a concrete run. *)
Lemma cached_stays_cached_witness :
  is_Some (baseSelectors.getProfiles
             (store (exec createRegistry
                       ([Create "UA-12345-1" "Test";
                         Respond_set 0 (Resolved sampleProfile)] ++
                        [Read "UA-12345-1"; Create "UA-12345-1" "Other";
                         Respond_set 0 (Rejected sampleError)])))
             "UA-12345-1").
Proof.
  destruct (cached_stays_cached
              [Create "UA-12345-1" "Test"; Respond_set 0 (Resolved sampleProfile)]
              [Read "UA-12345-1"; Create "UA-12345-1" "Other";
               Respond_set 0 (Rejected sampleError)] "UA-12345-1")
    as [Hcached _]; [|exact Hcached].
  exists (Array [sampleProfile]). reflexivity.
Defined.

(** [cached_before_request_never_fetched] at a concrete run. *)
Lemma cached_before_request_never_fetched_witness :
  "UA-12345-1" ∉ requestedProfiles
    (calls (exec createRegistry
              ([Create "UA-12345-1" "Test"; Respond_set 0 (Resolved sampleProfile)] ++
               [Read "UA-12345-1"; Read "UA-12345-1"]))).
Proof.
  apply (cached_before_request_never_fetched
           [Create "UA-12345-1" "Test"; Respond_set 0 (Resolved sampleProfile)]).
  - exists (Array [sampleProfile]). reflexivity.
  - vm_compute. by intros ?%elem_of_nil.
Defined.

(** [callbacks_of_different_keys_commute] at a concrete input. *)
Lemma callbacks_of_different_keys_commute_witness :
  fetchCreateProfileStore.reducerCallback
    (fetchGetProfilesStore.reducerCallback BASE_INITIAL_STATE [sampleProfile]
       "UA-12345-1")
    sampleProfile ("UA-12345-2", "Test")
  = (state' ← fetchCreateProfileStore.reducerCallback BASE_INITIAL_STATE
                sampleProfile ("UA-12345-2", "Test");
     Value (fetchGetProfilesStore.reducerCallback state' [sampleProfile]
              "UA-12345-1")).
Proof.
  apply (callbacks_of_different_keys_commute BASE_INITIAL_STATE
           "UA-12345-1" "UA-12345-2" "Test" "Test" [sampleProfile] [sampleProfile]
           sampleProfile sampleProfile).
  discriminate.
Defined.

(** [resolver_on_cached_list] at a concrete input. *)
Lemma resolver_on_cached_list_witness :
  let state :=
    fetchGetProfilesStore.reducerCallback BASE_INITIAL_STATE [] "UA-12345-1" in
  isValidPropertyID "UA-12345-1" = true ∧
  baseSelectors.getProfiles state "UA-12345-1" = Some (Array []) ∧
  ∃ state',
    run (baseResolvers.getProfiles "UA-12345-1") state = (state', Return ()) ∧
    profiles state' = profiles state ∧
    is_Some (getProfileID state') ∧
    run (baseResolvers.getProfiles "UA-12345-1") state' = (state', Return ()).
Proof.
  split; [reflexivity|]. split; [reflexivity|].
  apply (@resolver_on_cached_list sampleUtil "UA-12345-1"
           (fetchGetProfilesStore.reducerCallback BASE_INITIAL_STATE [] "UA-12345-1")
           []); reflexivity.
Defined.

(** [resolver_failure_selects_nothing] at a concrete input. *)
Lemma resolver_failure_selects_nothing_witness :
  isValidPropertyID "UA-12345-1" = true ∧
  baseSelectors.getProfiles BASE_INITIAL_STATE "UA-12345-1" = None ∧
  ∃ k,
    (run (baseResolvers.getProfiles "UA-12345-1") BASE_INITIAL_STATE).2
      = Await_get (fetchGetProfilesStore.controlCallback "UA-12345-1") k ∧
    ∀ e later,
      getProfileID (run (k (Rejected e)) later).1 = getProfileID later ∧
      profiles (run (k (Rejected e)) later).1 = profiles later.
Proof.
  split; [reflexivity|]. split; [reflexivity|].
  apply (@resolver_failure_selects_nothing sampleUtil "UA-12345-1"
           BASE_INITIAL_STATE); reflexivity.
Defined.

(** [createProfile_returns_cached_profile] at a concrete run. *)
Lemma createProfile_returns_cached_profile_witness :
  let r := exec createRegistry [Create "UA-12345-1" "Test"] in
  awaitsCreate r 0 ("UA-12345-1", "Test") ∧
  inherited "UA-12345-1" = false ∧
  (step r (Respond_set 0 (Resolved sampleProfile))).2
    = Returned {| response := Some sampleProfile; error := None |} ∧
  last (cachedList (store (step r (Respond_set 0 (Resolved sampleProfile))).1)
          "UA-12345-1")
    = Some sampleProfile.
Proof.
  split; [reflexivity|]. split; [reflexivity|].
  pose proof (createProfile_returns_cached_profile
                [Create "UA-12345-1" "Test"] 0 "UA-12345-1" "Test" sampleProfile)
    as Hreturns.
  destruct Hreturns as [Hout Hlast]; [reflexivity|].
  split; [exact Hout|]. apply Hlast. reflexivity.
Defined.

(** [createProfile_sends_request] at a concrete input. *)
Lemma createProfile_sends_request_witness :
  isValidPropertyID "UA-12345-1" = true ∧
  isValidProfileName "Test" = true ∧
  calls (step createRegistry (Create "UA-12345-1" "Test")).1
    = [API_set_create_profile "12345" "UA-12345-1" "Test"].
Proof.
  split; [reflexivity|]. split; [reflexivity|].
  destruct (@createProfile_sends_request sampleUtil createRegistry
              "UA-12345-1" "Test") as (_ & Hcalls & _); [reflexivity..|].
  exact Hcalls.
Defined.

(** [setupWinNotification_overwrites] at a concrete object. *)
Lemma setupWinNotification_overwrites_witness :
  let fields : gmap string JSValue :=
    {[ "learnMore" := JSObject {[ "label" := JSString "Learn more" ]} ]} in
  fields !! "learnMore" = Some (JSObject {[ "label" := JSString "Learn more" ]}) ∧
  ∃ winData',
    optimize.setupWinNotification (λ text _, text) (JSObject fields)
      = (winData', Value ()) ∧
    optimize.setupWinNotification (λ text _, text) winData' = (winData', Value ()).
Proof.
  split; [reflexivity|].
  destruct (setupWinNotification_overwrites (λ text _, text)
              {[ "learnMore" := JSObject {[ "label" := JSString "Learn more" ]} ]}
              {[ "label" := JSString "Learn more" ]}) as (H1 & H2 & _);
    [reflexivity|].
  eexists. split; [exact H1|exact H2].
Defined.

(** [setupWinNotification_throws_half_done] at a concrete object. *)
Lemma setupWinNotification_throws_half_done_witness :
  let fields : gmap string JSValue := {[ "description" := JSString "Before" ]} in
  (∀ learnMore, fields !! "learnMore" ≠ Some (JSObject learnMore)) ∧
  optimize.setupWinNotification (λ text _, text) (JSObject fields)
  = (JSObject
       (<["description" :=
            JSString "To set up experiments and see the results, go to "]> fields),
     Throws "TypeError").
Proof.
  split; [intros learnMore; discriminate|].
  apply (setupWinNotification_throws_half_done (λ text _, text)
           {[ "description" := JSString "Before" ]} JSUndefined).
  intros learnMore. discriminate.
Defined.

End MoreRuns.
